(** * GlassifyNotes: the note exporter of [main.py] and [2.py]

    A shallow embedding of the two save paths of the repository,
    [NoteApp.save_to_file] / [NoteApp.save_as_docx] in [main.py] and
    [NoteModel.save_to_file] / [NoteModel._save_as_docx] /
    [NoteModel._add_image_to_doc] in [2.py], and the properties the
    specification states about them.

    Python [str] values are modelled by [string]: the byte string of
    their UTF-8 encoding.  Tests on ASCII characters (the suffix
    [".docx"], the separator [","], the line feed) read the same on
    that encoding as on the code points, because no byte of a
    multi-byte sequence is an ASCII byte.  A [str] that has no UTF-8
    encoding (one with a lone surrogate) is outside the model. *)

From Stdlib Require Import String Ascii Strings.Byte List ZArith Bool Lia.
From stdpp Require Import base option list gmap strings fin_maps.

Set Warnings "-register-all".

Local Open Scope string_scope.
Local Open Scope list_scope.

(** ** Python strings *)

Module PyStr.

(** [s.endswith(suffix)]. *)
Definition endswith (s suffix : string) : bool :=
  let n := String.length s in
  let k := String.length suffix in
  if Nat.leb k n then String.eqb (substring (n - k) k s) suffix else false.

(** [s.split(sep)] for a one-character separator: every occurrence
    of [sep] cuts, and the result is never empty. *)
Fixpoint split (sep : ascii) (s : string) : list string :=
  match s with
  | EmptyString => [ EmptyString ]
  | String c rest =>
      if Ascii.eqb c sep then EmptyString :: split sep rest
      else match split sep rest with
           | field :: fields => String c field :: fields
           | [] => [ String c EmptyString ]
           end
  end.

(** [s.replace(old, new)] for a one-character [old]. *)
Fixpoint replace (old : ascii) (new : string) (s : string) : string :=
  match s with
  | EmptyString => EmptyString
  | String c rest =>
      if Ascii.eqb c old then new +:+ replace old new rest
      else String c (replace old new rest)
  end.

(** [sep in s]. *)
Fixpoint contains (sep : ascii) (s : string) : bool :=
  match s with
  | EmptyString => false
  | String c rest => Ascii.eqb c sep || contains sep rest
  end.

(** The text after the first occurrence of [sep], when there is one:
    [s.split(sep, 1)[1]]. *)
Fixpoint after_first (sep : ascii) (s : string) : option string :=
  match s with
  | EmptyString => None
  | String c rest => if Ascii.eqb c sep then Some rest else after_first sep rest
  end.

(** The text before the first occurrence of [sep] (all of [s] when
    there is none): [s.split(sep)[0]]. *)
Fixpoint before_first (sep : ascii) (s : string) : string :=
  match s with
  | EmptyString => EmptyString
  | String c rest =>
      if Ascii.eqb c sep then EmptyString else String c (before_first sep rest)
  end.

End PyStr.

Definition comma : ascii := ","%char.
Definition line_feed : ascii := ascii_of_nat 10.

(** ** Exceptions and the result of a call *)

Inductive exn_class :=
| AttributeError | KeyError | IndexError | ValueError | OSError | OtherError.

(** [Raised c msg] is an exception of class [c] whose [str()] is [msg];
    [Chained msg cause] is [Exception(msg)] raised inside the [except]
    block that handles [cause], which Python records as its context. *)
Inductive exn :=
| Raised (c : exn_class) (msg : string)
| Chained (msg : string) (cause : exn).

(** [str(e)]. *)
Definition str (e : exn) : string :=
  match e with
  | Raised _ msg => msg
  | Chained msg _ => msg
  end.

(** The exception at the end of the chain of contexts. *)
Fixpoint root_cause (e : exn) : exn :=
  match e with
  | Raised _ _ => e
  | Chained _ cause => root_cause cause
  end.

Inductive result (A : Type) :=
| Ok (a : A)
| Err (e : exn).
Arguments Ok {A} a.
Arguments Err {A} e.

Definition is_ok {A} (r : result A) : bool :=
  match r with Ok _ => true | Err _ => false end.

(** ** The parsed HTML tree (bs4) *)

(** A [Tag] has a name, a dictionary of attributes and its children in
    document order.  A [NavigableString] is a text node; a [Comment]
    is a string node of one of the kinds [get_text] leaves out
    (comments, declarations and the like).  Both have [name] [None]. *)
Inductive element :=
| NavigableString (text : string)
| Comment (text : string)
| Tag (name : string) (attrs : gmap string string) (contents : list element).

Definition name (e : element) : option string :=
  match e with
  | Tag n _ _ => Some n
  | _ => None
  end.

(** [list(e.descendants)]: the nodes below [e] in document order, a
    node before its children. *)
Fixpoint descendants (e : element) : list element :=
  match e with
  | Tag _ _ cs =>
      (fix walk (l : list element) : list element :=
         match l with
         | [] => []
         | c :: l' => c :: descendants c ++ walk l'
         end) cs
  | _ => []
  end.

Definition descendants_of_list (cs : list element) : list element :=
  flat_map (fun c => c :: descendants c) cs.

(** [e.get_text()]: the text nodes below [e], concatenated. *)
Fixpoint get_text (e : element) : string :=
  match e with
  | NavigableString s => s
  | Comment _ => EmptyString
  | Tag _ _ cs =>
      (fix cat (l : list element) : string :=
         match l with
         | [] => EmptyString
         | c :: l' => get_text c +:+ cat l'
         end) cs
  end.

Definition has_name (n : string) (e : element) : bool :=
  match name e with
  | Some m => String.eqb m n
  | None => false
  end.

(** [soup.body]: the first tag named ["body"] below the root, or
    [None]. *)
Definition find_body (soup : list element) : option element :=
  List.find (has_name "body") (descendants_of_list soup).

(** ** The output document (python-docx) and the file system *)

Definition bytes := list byte.

(** A block of the document body.  [Paragraph text] is what
    [add_paragraph(text)] appends; [Picture blob width] is what
    [add_picture(path, width)] appends: a paragraph of its own that
    holds the image read from [path] as one inline picture. *)
Inductive block :=
| Paragraph (text : string)
| Picture (blob : bytes) (width : Z).

Definition document := list block.

(** [Document()]: the default template has an empty body. *)
Definition Document : document := [].

(** [docx.shared.Inches(n)], a length in English Metric Units. *)
Definition Inches (n : Z) : Z := (n * 914400)%Z.

Inductive file :=
| Data (b : bytes)
| Docx (d : document).

(** The part of the machine an export touches: the rich text the
    editor widget holds (as [toHtml()] gives it), the files under
    their paths, and the temporary files in the order [tempfile] made
    them (the n-th one is named by its index [n]; they are never
    deleted, [delete=False]).  Paths are taken as canonical: two
    different strings name two different files. *)
Record world := World {
  editor : string;
  fs : gmap string file;
  tmp : list bytes
}.

Definition with_fs (f : gmap string file) (w : world) : world :=
  World (editor w) f (tmp w).

Definition with_tmp (t : list bytes) (w : world) : world :=
  World (editor w) (fs w) t.

(** ** What the libraries and the operating system decide *)

Class Platform := {
  (** PIL's image objects *)
  image : Type;
  (** [BeautifulSoup(html, "html.parser").contents] *)
  html_parser : string -> list element;
  (** [base64.b64decode] *)
  b64decode : string -> result bytes;
  (** [Image.open(io.BytesIO(b))] *)
  Image_open : bytes -> result image;
  (** the bytes [image.save(fp, format="PNG")] leaves in [fp] *)
  save_png : image -> result bytes;
  (** what python-docx answers when [text] becomes the text of a run:
      [ValueError] where XML cannot hold it (a NUL byte, a control
      character) *)
  run_text : string -> result unit;
  (** [os.linesep] *)
  os_linesep : string;
  (** what opening a path for writing answers *)
  os_open : string -> result unit
}.

(** ** Calls that may raise and that change the world *)

Definition M (A : Type) : Type := world -> result A * world.

Definition ret {A} (a : A) : M A := fun w => (Ok a, w).

Definition raise {A} (e : exn) : M A := fun w => (Err e, w).

Definition lift {A} (r : result A) : M A := fun w => (r, w).

Definition bind {A B} (m : M A) (k : A -> M B) : M B :=
  fun w =>
    match m w with
    | (Ok a, w') => k a w'
    | (Err e, w') => (Err e, w')
    end.

Notation "x <- m ;; k" := (bind m (fun x => k))
  (at level 100, m at next level, right associativity).
Notation "m ;;; k" := (bind m (fun _ => k))
  (at level 100, right associativity).

(** [try: m  except Exception as e: handler e]. *)
Definition try_except {A} (m : M A) (handler : exn -> M A) : M A :=
  fun w =>
    match m w with
    | (Ok a, w') => (Ok a, w')
    | (Err e, w') => handler e w'
    end.

(** [for x in xs: acc = body acc x], leaving at the first exception. *)
Fixpoint for_each {A S} (xs : list A) (acc : S) (body : S -> A -> M S) : M S :=
  match xs with
  | [] => ret acc
  | x :: xs' => acc' <- body acc x ;; for_each xs' acc' body
  end.

(** [raise Exception(f"{prefix}{str(e)}")] in the handler of [e]. *)
Definition reraise {A} (prefix : string) (e : exn) : M A :=
  raise (Chained (prefix +:+ str e) e).

Section Calls.

Context {P : Platform}.

(** [self.text_edit.toHtml()]. *)
Definition toHtml : M string := fun w => (Ok (editor w), w).

(** [soup.body.descendants]: [None] has no attribute. *)
Definition body_descendants (soup : list element) : M (list element) :=
  match find_body soup with
  | Some body => ret (descendants body)
  | None =>
      raise (Raised AttributeError
               "'NoneType' object has no attribute 'descendants'")
  end.

(** [element[key]]. *)
Definition getitem (e : element) (key : string) : M string :=
  match e with
  | Tag _ attrs _ =>
      match attrs !! key with
      | Some v => ret v
      | None => raise (Raised KeyError ("'" +:+ key +:+ "'"))
      end
  | _ => raise (Raised OtherError "string indices must be integers")
  end.

(** [l[i]]. *)
Definition index {A} (l : list A) (i : nat) : M A :=
  match nth_error l i with
  | Some x => ret x
  | None => raise (Raised IndexError "list index out of range")
  end.

(** [document.add_paragraph(text)]. *)
Definition add_paragraph (d : document) (text : string) : M document :=
  lift (run_text text) ;;;
  ret (d ++ [ Paragraph text ]).

(** [tempfile.NamedTemporaryFile(suffix=".png", delete=False)]: a
    new, empty file under a name no other file has. *)
Definition NamedTemporaryFile : M nat :=
  fun w => (Ok (length (tmp w)), with_tmp (tmp w ++ [ [] ]) w).

(** [image.save(temp_image, format="PNG")]; PIL flushes [temp_image]
    when it is done, so the file holds all of the bytes from then
    on, closed or not. *)
Definition image_save (im : image) (temp_image : nat) : M unit :=
  png <- lift (save_png im) ;;
  fun w => (Ok tt, with_tmp (<[temp_image := png]> (tmp w)) w).

(** [document.add_picture(path, width=width)] reads the file. *)
Definition add_picture (d : document) (path : nat) (width : Z) : M document :=
  fun w =>
    match tmp w !! path with
    | Some blob => (Ok (d ++ [ Picture blob width ]), w)
    | None => (Err (Raised OSError "No such file or directory"), w)
    end.

(** [document.save(file_name)]. *)
Definition document_save (d : document) (file_name : string) : M unit :=
  lift (os_open file_name) ;;;
  fun w => (Ok tt, with_fs (<[file_name := Docx d]> (fs w)) w).

(** What a text file opened with [encoding="utf-8"] and the default
    [newline=None] holds after [write(s)]: every line feed of [s] is
    written as [os.linesep]. *)
Definition text_bytes (s : string) : bytes :=
  list_byte_of_string (PyStr.replace line_feed os_linesep s).

(** [open(file_name, "w", encoding="utf-8")] creates the file or
    empties it; the file object is named by its path here. *)
Definition open_w (file_name : string) : M string :=
  lift (os_open file_name) ;;;
  fun w => (Ok file_name, with_fs (<[file_name := Data []]> (fs w)) w).

(** [file.write(s)]: the bytes of [s] go after what the file holds.
    Writing text that has an encoding to a file that was opened is
    taken to succeed: a write the system refuses after the file was
    opened (a full disk) is outside the model, as is a [str] without
    encoding. *)
Definition file_write (file s : string) : M unit :=
  fun w =>
    let held := match fs w !! file with
                | Some (Data b) => b
                | _ => []
                end in
    (Ok tt, with_fs (<[file := Data (held ++ text_bytes s)]> (fs w)) w).

(** [with open(file_name, "w", encoding="utf-8") as file:
       file.write(s)]. *)
Definition write_text (file_name s : string) : M unit :=
  file <- open_w file_name ;;
  file_write file s.

End Calls.

(** ** [main.py] *)

Module NoteApp.
Section NoteApp.

Context {P : Platform}.

(** The body of the [for] loop of [save_as_docx]. *)
Definition visit (d : document) (element : element) : M document :=
  if has_name "p" element then
    add_paragraph d (get_text element)
  else if has_name "img" element then
    src <- getitem element "src" ;;
    img_data <- index (PyStr.split comma src) 1 ;;
    image_bytes <- lift (b64decode img_data) ;;
    im <- lift (Image_open image_bytes) ;;
    temp_image <- NamedTemporaryFile ;;
    image_save im temp_image ;;;
    add_picture d temp_image (Inches 4)
  else ret d.

(** [save_as_docx] up to its last statement: the document as it
    stands when [document.save] is reached. *)
Definition assemble : M document :=
  let d := Document in
  html_content <- toHtml ;;
  let soup := html_parser html_content in
  elements <- body_descendants soup ;;
  for_each elements d visit.

Definition save_as_docx (file_name : string) : M unit :=
  d <- assemble ;;
  document_save d file_name.

Definition save_to_file (file_name : string) : M unit :=
  if PyStr.endswith file_name ".docx" then save_as_docx file_name
  else
    file <- open_w file_name ;;
    html_content <- toHtml ;;
    file_write file html_content.

End NoteApp.
End NoteApp.

(** ** [2.py] *)

Module NoteModel.
Section NoteModel.

Context {P : Platform}.

(** [add_picture] runs inside the [with] block here and after it
    in [main.py]; the file is flushed by then in both. *)
Definition _add_image_to_doc (d : document) (element : element) : M document :=
  try_except
    (src <- getitem element "src" ;;
     img_data <- index (PyStr.split comma src) 1 ;;
     image_bytes <- lift (b64decode img_data) ;;
     im <- lift (Image_open image_bytes) ;;
     temp_image <- NamedTemporaryFile ;;
     image_save im temp_image ;;;
     add_picture d temp_image (Inches 4))
    (reraise "Image processing failed: ").

(** The body of the [for] loop of [_save_as_docx]. *)
Definition visit (d : document) (element : element) : M document :=
  if has_name "p" element then
    add_paragraph d (get_text element)
  else if has_name "img" element then
    _add_image_to_doc d element
  else ret d.

(** The [try] block of [_save_as_docx] up to its last statement. *)
Definition assemble (html_content : string) : M document :=
  let d := Document in
  let soup := html_parser html_content in
  elements <- body_descendants soup ;;
  for_each elements d visit.

Definition _save_as_docx (html_content file_name : string) : M unit :=
  try_except
    (d <- assemble html_content ;;
     document_save d file_name)
    (reraise "DOCX conversion failed: ").

Definition save_to_file (content file_name : string) : M bool :=
  try_except
    ((if PyStr.endswith file_name ".docx" then _save_as_docx content file_name
      else write_text file_name content) ;;;
     ret true)
    (reraise "Save failed: ").

End NoteModel.
End NoteModel.

(** ** Two machines to run the definitions on

    Both decode base64, take for an image any byte string that starts
    with the PNG signature and write an image back as the bytes it was
    read from, take for the text of a run what has no control
    character, and parse only the fixed pages below.  They differ in
    [os.linesep].  Opening a path for writing fails on the empty path
    and under [/proc/]. *)

Module Machine.

Definition b64_value (c : ascii) : option N :=
  let n := N_of_ascii c in
  if (65 <=? n)%N && (n <=? 90)%N then Some (n - 65)%N
  else if (97 <=? n)%N && (n <=? 122)%N then Some (n - 71)%N
  else if (48 <=? n)%N && (n <=? 57)%N then Some (n + 4)%N
  else if (n =? 43)%N then Some 62%N
  else if (n =? 47)%N then Some 63%N
  else None.

Definition octets (l : list N) : option bytes :=
  mapM Byte.of_N l.

Definition bad_padding : exn := Raised ValueError "Incorrect padding".

(** Four characters at a time; what follows the padding is ignored. *)
Fixpoint decode_quads (s : string) : result bytes :=
  match s with
  | EmptyString => Ok []
  | String a (String b (String c (String d rest))) =>
      match b64_value a, b64_value b with
      | Some x, Some y =>
          let pad := "="%char in
          if Ascii.eqb c pad && Ascii.eqb d pad then
            match octets [ (x * 4 + y / 16)%N ] with
            | Some o => Ok o
            | None => Err bad_padding
            end
          else if Ascii.eqb d pad then
            match b64_value c with
            | Some z =>
                match octets [ (x * 4 + y / 16)%N;
                               ((y mod 16) * 16 + z / 4)%N ] with
                | Some o => Ok o
                | None => Err bad_padding
                end
            | None => Err bad_padding
            end
          else
            match b64_value c, b64_value d, decode_quads rest with
            | Some z, Some t, Ok tl =>
                match octets [ (x * 4 + y / 16)%N;
                               ((y mod 16) * 16 + z / 4)%N;
                               ((z mod 4) * 64 + t)%N ] with
                | Some o => Ok (o ++ tl)
                | None => Err bad_padding
                end
            | _, _, Err e => Err e
            | _, _, _ => Err bad_padding
            end
      | _, _ => Err bad_padding
      end
  | _ => Err bad_padding
  end.

(** The characters of the alphabet and the padding sign. *)
Fixpoint clean (s : string) : string :=
  match s with
  | EmptyString => EmptyString
  | String c rest =>
      if Ascii.eqb c "="%char || bool_decide (is_Some (b64_value c))
      then String c (clean rest)
      else clean rest
  end.

(** As [b64decode] does without [validate]: characters outside the
    alphabet are skipped. *)
Definition decode (s : string) : result bytes := decode_quads (clean s).

Definition png_signature : bytes :=
  [ x89; x50; x4e; x47; x0d; x0a; x1a; x0a ]%byte.

Fixpoint starts_with (prefix b : bytes) : bool :=
  match prefix, b with
  | [], _ => true
  | x :: prefix', y :: b' => Byte.eqb x y && starts_with prefix' b'
  | _ :: _, [] => false
  end.

Definition open_image (b : bytes) : result bytes :=
  if starts_with png_signature b then Ok b
  else Err (Raised OSError "cannot identify image file").

(** The characters XML can hold, among those below 128: the tab, the
    line feed, the carriage return and what is not a control
    character. *)
Definition xml_char (c : ascii) : bool :=
  let n := nat_of_ascii c in
  Nat.leb 32 n || Nat.eqb n 9 || Nat.eqb n 10 || Nat.eqb n 13.

Fixpoint xml_string (s : string) : bool :=
  match s with
  | EmptyString => true
  | String c rest => xml_char c && xml_string rest
  end.

Definition set_text (text : string) : result unit :=
  if xml_string text then Ok tt
  else Err (Raised ValueError
              "All strings must be XML compatible: Unicode or ASCII, no NULL bytes or control characters").

Definition open_path (path : string) : result unit :=
  if String.eqb path EmptyString then
    Err (Raised OSError "[Errno 2] No such file or directory: ''")
  else if String.prefix "/proc/" path then
    Err (Raised OSError "[Errno 13] Permission denied")
  else Ok tt.

Definition src_attr (v : string) : gmap string string := {[ "src" := v ]}.

(** [<html><body><p>Hi <img src=.../>there</p><span>x</span></body></html>] *)
Definition page_nested : list element :=
  [ Tag "html" ∅
      [ Tag "body" ∅
          [ Tag "p" ∅
              [ NavigableString "Hi ";
                Tag "img" (src_attr "data:image/png;base64,iVBORw0KGgo=") [];
                NavigableString "there" ];
            Tag "span" ∅ [ NavigableString "x" ] ] ] ].

(** [<body><img src="data:image/png;base64,iVBORw0K,Ggo="></body>] *)
Definition page_split_payload : list element :=
  [ Tag "body" ∅
      [ Tag "img" (src_attr "data:image/png;base64,iVBORw0K,Ggo=") [] ] ].

(** [<body><p>a</p><img src="nocomma"><p>b</p></body>] *)
Definition page_no_comma : list element :=
  [ Tag "body" ∅
      [ Tag "p" ∅ [ NavigableString "a" ];
        Tag "img" (src_attr "nocomma") [];
        Tag "p" ∅ [ NavigableString "b" ] ] ].

(** [<body><p>one</p><div><p>t<b>w</b>o</p></div></body>] *)
Definition page_paragraphs : list element :=
  [ Tag "body" ∅
      [ Tag "p" ∅ [ NavigableString "one" ];
        Tag "div" ∅
          [ Tag "p" ∅
              [ NavigableString "t";
                Tag "b" ∅ [ NavigableString "w" ];
                NavigableString "o" ] ] ] ].

Definition parse (html : string) : list element :=
  if String.eqb html "nested" then page_nested
  else if String.eqb html "paragraphs" then page_paragraphs
  else if String.eqb html "split payload" then page_split_payload
  else if String.eqb html "no comma" then page_no_comma
  else [ NavigableString html ].

Definition carriage_return : ascii := ascii_of_nat 13.

Definition posix : Platform := {|
  image := bytes;
  html_parser := parse;
  b64decode := decode;
  Image_open := open_image;
  save_png := fun im => Ok im;
  run_text := set_text;
  os_linesep := String line_feed EmptyString;
  os_open := open_path
|}.

Definition windows : Platform := {|
  image := bytes;
  html_parser := parse;
  b64decode := decode;
  Image_open := open_image;
  save_png := fun im => Ok im;
  run_text := set_text;
  os_linesep := String carriage_return (String line_feed EmptyString);
  os_open := open_path
|}.

(** ["a\nb"]. *)
Definition two_lines : string := String "a" (String line_feed "b").

(** ["a\r\nb"]. *)
Definition two_lines_crlf : string :=
  String "a" (String carriage_return (String line_feed "b")).

(** A world whose editor holds [html] and that has no file yet. *)
Definition fresh (html : string) : world := World html ∅ [].

End Machine.


(** * The vocabulary of the properties *)

(** The text [visit] hands to [b64decode]:
    [element["src"].split(",")[1]]. *)
Definition img_data (src : string) : option string :=
  nth_error (PyStr.split comma src) 1.

(** What a call makes of the document it was given. *)
Definition extend (d : document) (r : result (list block)) : result document :=
  match r with
  | Ok blocks => Ok (d ++ blocks)
  | Err x => Err x
  end.

Definition image_failed (x : exn) : exn :=
  Chained ("Image processing failed: " +:+ str x) x.

Definition docx_failed (x : exn) : exn :=
  Chained ("DOCX conversion failed: " +:+ str x) x.

Definition save_failed (x : exn) : exn :=
  Chained ("Save failed: " +:+ str x) x.

Definition no_body : exn :=
  Raised AttributeError "'NoneType' object has no attribute 'descendants'".

(** [e] is [e0] under one or more [Exception] wrappers, each with the
    message of what it wraps after its own prefix. *)
Inductive wraps : exn -> exn -> Prop :=
| wraps_once prefix e0 :
    wraps (Chained (prefix +:+ str e0) e0) e0
| wraps_again prefix e e0 :
    wraps e e0 -> wraps (Chained (prefix +:+ str e) e) e0.

Definition on_error {A} (f : exn -> exn) (r : result A * world)
  : result A * world :=
  match r with
  | (Err x, w) => (Err (f x), w)
  | (Ok a, w) => (Ok a, w)
  end.

(** [True] for the [None] a call without [return] gives. *)
Definition returns_True (r : result unit * world) : result bool * world :=
  match r with
  | (Ok _, w) => (Ok true, w)
  | (Err x, w) => (Err x, w)
  end.

(** The text of a text node, and no text for any other node. *)
Definition own_text (e : element) : string :=
  match e with
  | NavigableString s => s
  | _ => EmptyString
  end.

(** The strings of [l] one after the other. *)
Definition join (l : list string) : string :=
  fold_right String.append EmptyString l.

Definition is_picture (b : block) : bool :=
  match b with
  | Picture _ _ => true
  | Paragraph _ => false
  end.

Section Vocabulary.

Context {P : Platform}.

(** The image an [img] element is read as, up to [Image.open]. *)
Definition read_image (e : element) : result image :=
  match e with
  | Tag _ attrs _ =>
      match attrs !! "src" with
      | None => Err (Raised KeyError "'src'")
      | Some src =>
          match img_data src with
          | None => Err (Raised IndexError "list index out of range")
          | Some data =>
              match b64decode data with
              | Err x => Err x
              | Ok raw => Image_open raw
              end
          end
      end
  | _ => Err (Raised OtherError "string indices must be integers")
  end.

(** What visiting [e] appends or raises, and the temporary files it
    leaves behind; [k] is what becomes of an exception of the image
    branch (one of [add_paragraph] comes out as it is). *)
Definition visit_trace (k : exn -> exn) (e : element)
  : result (list block) * list bytes :=
  if has_name "p" e then
    match run_text (get_text e) with
    | Ok _ => (Ok [ Paragraph (get_text e) ], [])
    | Err x => (Err x, [])
    end
  else if has_name "img" e then
    match read_image e with
    | Err x => (Err (k x), [])
    | Ok im =>
        match save_png im with
        | Err x => (Err (k x), [ [] ])
        | Ok png => (Ok [ Picture png (Inches 4) ], [ png ])
        end
    end
  else (Ok [], []).

Fixpoint loop_trace (k : exn -> exn) (es : list element)
  : result (list block) * list bytes :=
  match es with
  | [] => (Ok [], [])
  | e :: es' =>
      match visit_trace k e with
      | (Err x, t) => (Err x, t)
      | (Ok blocks, t) =>
          match loop_trace k es' with
          | (Ok blocks', t') => (Ok (blocks ++ blocks'), t ++ t')
          | (Err x, t') => (Err x, t ++ t')
          end
      end
  end.

Definition follows (k : exn -> exn) (visit : document -> element -> M document)
  : Prop :=
  forall d e w,
    visit d e w =
      (extend d (fst (visit_trace k e)),
       with_tmp (tmp w ++ snd (visit_trace k e)) w).

(** The whole of the assembling, apart from the world. *)
Definition assemble_trace (k : exn -> exn) (html : string)
  : result (list block) * list bytes :=
  match find_body (html_parser html) with
  | Some body => loop_trace k (descendants body)
  | None => (Err no_body, [])
  end.

(** [png] is the PNG file the exporter makes of the image element
    [e]: the second comma-separated field of its [src], decoded from
    base64, opened as an image and saved as PNG. *)
Definition picture_bytes (e : element) (png : bytes) : Prop :=
  exists n attrs cs src data raw im,
    e = Tag n attrs cs /\
    attrs !! "src" = Some src /\
    img_data src = Some data /\
    b64decode data = Ok raw /\
    Image_open raw = Ok im /\
    save_png im = Ok png.

(** What one node adds to the document and to the temporary files
    when its visit does not raise: python-docx took the text of the
    paragraph, the image was decoded, opened and saved. *)
Inductive visited : element -> list block -> list bytes -> Prop :=
| visited_p e :
    has_name "p" e = true ->
    run_text (get_text e) = Ok tt ->
    visited e [ Paragraph (get_text e) ] []
| visited_img e png :
    has_name "img" e = true ->
    picture_bytes e png ->
    visited e [ Picture png (Inches 4) ] [ png ]
| visited_other e :
    has_name "p" e = false ->
    has_name "img" e = false ->
    visited e [] [].

Inductive walked : list element -> list block -> list bytes -> Prop :=
| walked_nil : walked [] [] []
| walked_cons e es blocks temps blocks' temps' :
    visited e blocks temps ->
    walked es blocks' temps' ->
    walked (e :: es) (blocks ++ blocks') (temps ++ temps').

(** What a node adds where it is no image: a paragraph for a [p],
    nothing for another node. *)
Definition paragraph_of (e : element) : list block :=
  if has_name "p" e then [ Paragraph (get_text e) ] else [].

(** A DOCX export of [html] to [file_name] from [w], with [k] on the
    exceptions of the image branch. *)
Definition docx_outcome (k : exn -> exn) (html file_name : string) (w : world)
  : result unit * world :=
  match assemble_trace k html with
  | (Err x, temps) => (Err x, with_tmp (tmp w ++ temps) w)
  | (Ok blocks, temps) =>
      match os_open file_name with
      | Err x => (Err x, with_tmp (tmp w ++ temps) w)
      | Ok _ =>
          (Ok tt,
           World (editor w) (<[file_name := Docx blocks]> (fs w))
             (tmp w ++ temps))
      end
  end.

(** A text export of [s] to [file_name] from [w]. *)
Definition text_outcome (s file_name : string) (w : world)
  : result unit * world :=
  match os_open file_name with
  | Err x => (Err x, w)
  | Ok _ => (Ok tt, with_fs (<[file_name := Data (text_bytes s)]> (fs w)) w)
  end.

(** What one node of the walk adds to the document. *)
Definition contributes (e : element) (chunk : list block) : Prop :=
  if has_name "p" e then chunk = [ Paragraph (get_text e) ]
  else if has_name "img" e then
    exists png, picture_bytes e png /\ chunk = [ Picture png (Inches 4) ]
  else chunk = [].

(** The document under [file_name] in [w'] is the walk over the body
    of [html]: the contributions of the descendants of the body, in
    document order. *)
Definition holds_the_walk (html file_name : string) (w' : world) : Prop :=
  exists body chunks,
    find_body (html_parser html) = Some body /\
    Forall2 contributes (descendants body) chunks /\
    fs w' !! file_name = Some (Docx (concat chunks)).

(** One new temporary file per [img] element below the body, in
    document order, each holding the PNG made of that element; and the
    pictures of the document under [file_name] are these files, one
    picture each, 4 inches wide. *)
Definition pictures_of_images (html file_name : string) (w w' : world) : Prop :=
  exists body blocks pngs,
    find_body (html_parser html) = Some body /\
    Forall2 picture_bytes (List.filter (has_name "img") (descendants body)) pngs /\
    tmp w' = tmp w ++ pngs /\
    fs w' !! file_name = Some (Docx blocks) /\
    List.filter is_picture blocks = map (fun png => Picture png (Inches 4)) pngs.

(** Following the spec's words, "split on the first comma [...]
    base64-decode the remainder": the PNG of an image element when
    what is decoded is all of [src] after its first comma. *)
Definition picture_bytes_of_remainder (e : element) (png : bytes) : Prop :=
  exists n attrs cs src rest raw im,
    e = Tag n attrs cs /\
    attrs !! "src" = Some src /\
    PyStr.after_first comma src = Some rest /\
    b64decode rest = Ok raw /\
    Image_open raw = Ok im /\
    save_png im = Ok png.

(** What a call leaves of [w]: the editor as it was, at most one file
    written under [path], and new temporary files after the old. *)
Definition effect_on (path : string) (written : option file) (temps : list bytes)
           (w : world) : world :=
  World (editor w)
    (match written with
     | Some f => <[path := f]> (fs w)
     | None => fs w
     end)
    (tmp w ++ temps).

(** A [src] the exporter cannot make a picture of: it has no comma;
    or the text after its first comma (up to the next) is not base64
    for [b64decode]; or the decoded bytes are not an image, for
    [Image.open] or, as PIL reads the pixels only then, for
    [image.save]. *)
Inductive malformed : string -> Prop :=
| malformed_no_comma src :
    PyStr.contains comma src = false ->
    malformed src
| malformed_not_base64 src data x :
    img_data src = Some data ->
    b64decode data = Err x ->
    malformed src
| malformed_not_an_image src data raw x :
    img_data src = Some data ->
    b64decode data = Ok raw ->
    Image_open raw = Err x ->
    malformed src
| malformed_unreadable_image src data raw im x :
    img_data src = Some data ->
    b64decode data = Ok raw ->
    Image_open raw = Ok im ->
    save_png im = Err x ->
    malformed src.


(** The document under [file_name] has a picture made of [img]. *)
Definition has_picture_of (img : element) (file_name : string) (w' : world)
  : Prop :=
  exists png blocks,
    picture_bytes img png /\
    fs w' !! file_name = Some (Docx blocks) /\
    In (Picture png (Inches 4)) blocks.

End Vocabulary.

(** ** Induction on the tree, through the lists of children *)

Section ElementInduction.

Variable Q : element -> Prop.
Hypothesis Q_string : forall s, Q (NavigableString s).
Hypothesis Q_comment : forall s, Q (Comment s).
Hypothesis Q_tag : forall n a cs, Forall Q cs -> Q (Tag n a cs).

Fixpoint element_nested_ind (e : element) : Q e :=
  match e with
  | NavigableString s => Q_string s
  | Comment s => Q_comment s
  | Tag n a cs =>
      Q_tag n a cs
        ((fix all (l : list element) : Forall Q l :=
            match l with
            | [] => List.Forall_nil Q
            | c :: l' => List.Forall_cons Q c l' (element_nested_ind c) (all l')
            end) cs)
  end.

End ElementInduction.

(** * The handlers around the export *)

(** ** What Qt decides: the codes of keys, modifiers and buttons *)

Class Qt := {
  Key_S : Z;
  Key_Q : Z;
  Key_V : Z;
  Key_Z : Z;
  Key_Y : Z;
  ControlModifier : Z;
  ShiftModifier : Z;
  LeftButton : Z
}.

(** The branch a key press takes: the method it calls, or the
    [AttributeError] of a call to a method the object does not have. *)
Inductive handler :=
| to_save_note
| to_save_as_note
| to_save_and_exit
| to_paste_content
| to_undo
| to_redo
| to_keyPressEvent
| raises_AttributeError (message : string).

(** What the window keeps between two events: [current_file], the
    messages [QMessageBox.critical] has shown, whether
    [QApplication.quit()] was called, and the machine. *)
Record ui := Ui {
  current_file : option string;
  shown : list string;
  quit : bool;
  machine : world
}.

Definition U (A : Type) : Type := ui -> result A * ui.

Definition with_current_file (f : option string) (u : ui) : ui :=
  Ui f (shown u) (quit u) (machine u).

Definition with_machine (w : world) (u : ui) : ui :=
  Ui (current_file u) (shown u) (quit u) w.

(** A call on the machine, made from a handler. *)
Definition in_machine {A} (m : M A) : U A :=
  fun u =>
    match m (machine u) with
    | (r, w') => (r, with_machine w' u)
    end.

(** [if s:] for a string. *)
Definition nonempty (s : string) : bool := negb (String.eqb s EmptyString).

(** [if self.current_file:], with the path when the test holds:
    [None] and the empty string are false. *)
Definition chosen (u : ui) : option string :=
  match current_file u with
  | Some f => if nonempty f then Some f else None
  | None => None
  end.

(** [QApplication.quit()]. *)
Definition QApplication_quit : U unit :=
  fun u => (Ok tt, Ui (current_file u) (shown u) true (machine u)).

(** [self.view.show_error(message)]: [QMessageBox.critical]. *)
Definition show_error (message : string) : U unit :=
  fun u =>
    (Ok tt, Ui (current_file u) (shown u ++ [ message ]) (quit u) (machine u)).

(** A point of the screen, [QPoint]: two C++ [int] of 32 bits.
    [int32 z] is what a sum or a difference that comes to [z] is
    stored as, wrapped around in two's complement. *)
Definition point : Type := Z * Z.

Definition int32 (z : Z) : Z :=
  ((z + 2147483648) mod 4294967296 - 2147483648)%Z.

Definition in_int32 (z : Z) : Prop :=
  (-2147483648 <= z < 2147483648)%Z.

(** [QPoint.__sub__] and [QPoint.__add__]. *)
Definition point_sub (a b : point) : point :=
  (int32 (fst a - fst b), int32 (snd a - snd b)).

Definition point_add (a b : point) : point :=
  (int32 (fst a + fst b), int32 (snd a + snd b)).

(** Where the window is, [frameGeometry().topLeft()], and the
    attribute [drag_pos], which [__init__] does not set. *)
Record frame := Frame {
  topLeft : point;
  drag_pos : option point
}.

(** What [paste_content] does to the editor. *)
Inductive pasting :=
| insertHtml (html : string)
| paste_text
| no_paste.

Definition double_quote : string := String (ascii_of_nat 34) EmptyString.

(** ** The rest of [main.py] *)

Module NoteAppHandlers.
Section NoteAppHandlers.

Context {P : Platform} {K : Qt}.

Definition custom_key_press (key modifiers : Z) : handler :=
  if (key =? Key_S)%Z && (modifiers =? ControlModifier)%Z then to_save_note
  else if (key =? Key_S)%Z
          && (modifiers =? Z.lor ControlModifier ShiftModifier)%Z
  then to_save_as_note
  else if (key =? Key_Q)%Z && (modifiers =? ControlModifier)%Z
  then to_save_and_exit
  else if (key =? Key_V)%Z && (modifiers =? ControlModifier)%Z
  then to_paste_content
  else to_keyPressEvent.

(** [file_name] is what [QFileDialog.getSaveFileName] gives: the
    path the user chose, or the empty string. *)
Definition save_as_note (file_name : string) : U unit :=
  fun u =>
    if nonempty file_name then
      let u' := with_current_file (Some file_name) u in
      in_machine (NoteApp.save_to_file file_name) u'
    else (Ok tt, u).

(** [file_name] is the answer of the dialog, should it open. *)
Definition save_note (file_name : string) : U unit :=
  fun u =>
    match chosen u with
    | Some current => in_machine (NoteApp.save_to_file current) u
    | None => save_as_note file_name u
    end.

Definition save_and_exit (file_name : string) : U unit :=
  fun u =>
    let saved :=
      match chosen u with
      | None => save_as_note file_name u
      | Some current => in_machine (NoteApp.save_to_file current) u
      end in
    match saved with
    | (Ok _, u') => QApplication_quit u'
    | (Err e, u') => (Err e, u')
    end.

(** The data URI [paste_content] writes for an image whose
    [image_to_base64] is [b64]. *)
Definition data_uri (b64 : string) : string :=
  "data:image/png;base64," +:+ b64.

(** [b64] is [self.image_to_base64(clipboard.image())]. *)
Definition paste_content (hasImage hasText : bool) (b64 : string) : pasting :=
  if hasImage then
    insertHtml ("<img src=" +:+ double_quote +:+ data_uri b64
                +:+ double_quote +:+ ">")
  else if hasText then paste_text
  else no_paste.

Definition mousePressEvent (button : Z) (globalPos : point) (f : frame)
  : result unit * frame :=
  if (button =? LeftButton)%Z then
    (Ok tt, Frame (topLeft f) (Some (point_sub globalPos (topLeft f))))
  else (Ok tt, f).

(** [self.move(p)] puts the top left corner of the frame at [p]. *)
Definition mouseMoveEvent (buttons : Z) (globalPos : point) (f : frame)
  : result unit * frame :=
  if (buttons =? LeftButton)%Z then
    match drag_pos f with
    | Some d => (Ok tt, Frame (point_sub globalPos d) (drag_pos f))
    | None =>
        (Err (Raised AttributeError
                "'NoteApp' object has no attribute 'drag_pos'"), f)
    end
  else (Ok tt, f).

End NoteAppHandlers.
End NoteAppHandlers.

(** ** The rest of [2.py] *)

Module NoteController.
Section NoteController.

Context {P : Platform} {K : Qt}.

(** [NoteController] defines [save_note] and [save_as_note] and no
    [save_and_exit]: the call [self.save_and_exit()] of the third
    branch raises. *)
Definition no_save_and_exit : string :=
  "'NoteController' object has no attribute 'save_and_exit'".

Definition custom_key_press (key modifiers : Z) : handler :=
  if (key =? Key_S)%Z && (modifiers =? ControlModifier)%Z then to_save_note
  else if (key =? Key_S)%Z
          && (modifiers =? Z.lor ControlModifier ShiftModifier)%Z
  then to_save_as_note
  else if (key =? Key_Q)%Z && (modifiers =? ControlModifier)%Z
  then raises_AttributeError no_save_and_exit
  else if (key =? Key_Z)%Z && (modifiers =? ControlModifier)%Z then to_undo
  else if (key =? Key_Y)%Z && (modifiers =? ControlModifier)%Z then to_redo
  else to_keyPressEvent.

(** The [try] statement of [save_note] and of [save_as_note]:
    [on_success] is what follows a true [success]. *)
Definition try_save (file_name : string) (on_success : U unit) : U unit :=
  fun u =>
    let content := editor (machine u) in
    match in_machine (NoteModel.save_to_file content file_name) u with
    | (Ok success, u') =>
        if success then on_success u'
        else show_error "Save operation failed" u'
    | (Err e, u') => show_error (str e) u'
    end.

(** [file_name] is what [QFileDialog.getSaveFileName] gives. *)
Definition save_as_note (file_name : string) : U unit :=
  fun u =>
    if nonempty file_name then
      try_save file_name
        (fun u' => (Ok tt, with_current_file (Some file_name) u')) u
    else (Ok tt, u).

(** [file_name] is the answer of the dialog, should it open. *)
Definition save_note (file_name : string) : U unit :=
  fun u =>
    match chosen u with
    | Some current => try_save current (fun u' => (Ok tt, u')) u
    | None => save_as_note file_name u
    end.

End NoteController.
End NoteController.

(** The codes of Qt 5. *)
Definition qt5 : Qt := {|
  Key_S := 83;
  Key_Q := 81;
  Key_V := 86;
  Key_Z := 90;
  Key_Y := 89;
  ControlModifier := 67108864;
  ShiftModifier := 33554432;
  LeftButton := 1
|}.

(** A window that has just opened on [w]. *)
Definition opened (w : world) : ui := Ui None [] false w.

(** ** A third machine, on which an image can fail to be saved

    As [Machine.posix], but [image.save] raises on an image of more
    than eight bytes, and the parser knows other pages. *)

Module Bench.

(** [<body><img src=...><img src=...><p>z</p></body>], the second
    image one byte longer than the first. *)
Definition page_two_images : list element :=
  [ Tag "body" ∅
      [ Tag "img" (Machine.src_attr "data:image/png;base64,iVBORw0KGgo=") [];
        Tag "img" (Machine.src_attr "data:image/png;base64,iVBORw0KGgoA") [];
        Tag "p" ∅ [ NavigableString "z" ] ] ].

(** [<body><p>a</p><img alt="x"><p>b</p></body>] *)
Definition page_no_src : list element :=
  [ Tag "body" ∅
      [ Tag "p" ∅ [ NavigableString "a" ];
        Tag "img" {[ "alt" := "x" ]} [];
        Tag "p" ∅ [ NavigableString "b" ] ] ].

(** [<html><body><p>a</p></body><img src="nocomma"></html>]: the
    image comes after the end of the body. *)
Definition page_image_beside_body : list element :=
  [ Tag "html" ∅
      [ Tag "body" ∅ [ Tag "p" ∅ [ NavigableString "a" ] ];
        Tag "img" (Machine.src_attr "nocomma") [] ] ].

(** [<body><img src="data:image/png;base64,iVBO!Rw0KGgo="></body>] *)
Definition page_stray_character : list element :=
  [ Tag "body" ∅
      [ Tag "img" (Machine.src_attr "data:image/png;base64,iVBO!Rw0KGgo=") [] ] ].

Definition parse (html : string) : list element :=
  if String.eqb html "two images" then page_two_images
  else if String.eqb html "no src" then page_no_src
  else if String.eqb html "image beside body" then page_image_beside_body
  else if String.eqb html "stray character" then page_stray_character
  else [ NavigableString html ].

(** Following the claim's words, "valid base64": characters of the
    alphabet in groups of four, the last group ending with no, one or
    two padding signs. *)
Fixpoint valid_base64 (s : string) : bool :=
  match s with
  | EmptyString => true
  | String a (String b (String c (String d rest))) =>
      let data x := bool_decide (is_Some (Machine.b64_value x)) in
      let pad x := Ascii.eqb x "="%char in
      data a && data b &&
      match rest with
      | EmptyString => (data c && (data d || pad d)) || (pad c && pad d)
      | _ => data c && data d && valid_base64 rest
      end
  | _ => false
  end.

Definition save (im : bytes) : result bytes :=
  if Nat.leb (length im) 8 then Ok im
  else Err (Raised OSError "cannot write mode CMYK as PNG").

Definition picky : Platform := {|
  image := bytes;
  html_parser := parse;
  b64decode := Machine.decode;
  Image_open := Machine.open_image;
  save_png := save;
  run_text := Machine.set_text;
  os_linesep := String line_feed EmptyString;
  os_open := Machine.open_path
|}.

End Bench.

(** What a handler of [2.py] may leave of [u]: it does not raise, and
    it shows nothing or one message that starts with
    ["Save failed: "]. *)
Definition reports (u : ui) (r : result unit * ui) : Prop :=
  fst r = Ok tt /\
  exists messages,
    shown (snd r) = shown u ++ messages /\
    (messages = [] \/
     exists cause, messages = [ "Save failed: " +:+ cause ]) /\
    ~ In "Save operation failed" messages.

(** ** Sequences of events *)

(** A call of one of the save handlers, with the answer the file
    dialog gives should it open. *)
Inductive save_call :=
| call_save_note (answer : string)
| call_save_as_note (answer : string)
| call_save_and_exit (answer : string).

(** A call of one of the save handlers of [2.py]. *)
Inductive controller_call :=
| controller_save_note (answer : string)
| controller_save_as_note (answer : string).

Section Sequences.

Context {P : Platform}.

(** The window of [main.py] after a call, raised or not. *)
Definition after_call (u : ui) (c : save_call) : ui :=
  match c with
  | call_save_note answer => snd (NoteAppHandlers.save_note answer u)
  | call_save_as_note answer => snd (NoteAppHandlers.save_as_note answer u)
  | call_save_and_exit answer => snd (NoteAppHandlers.save_and_exit answer u)
  end.

(** The window of [2.py] after a call. *)
Definition after_controller_call (u : ui) (c : controller_call) : ui :=
  match c with
  | controller_save_note answer => snd (NoteController.save_note answer u)
  | controller_save_as_note answer => snd (NoteController.save_as_note answer u)
  end.

End Sequences.

Section Dragging.

Context {K : Qt}.

(** Mouse moves with the left button down, one after the other, up to
    the first that raises. *)
Fixpoint drag (moves : list point) (f : frame) : result unit * frame :=
  match moves with
  | [] => (Ok tt, f)
  | globalPos :: rest =>
      match NoteAppHandlers.mouseMoveEvent LeftButton globalPos f with
      | (Ok _, f') => drag rest f'
      | (Err e, f') => (Err e, f')
      end
  end.

End Dragging.

(** * Properties *)

(** ** Strings *)

Section StringFacts.

Lemma length_append (a b : string) :
  String.length (a +:+ b) = String.length a + String.length b.
Proof. induction a as [|c a IH]; simpl; [reflexivity | now rewrite IH]. Qed.

Lemma append_String (c : ascii) (a b : string) :
  String c a +:+ b = String c (a +:+ b).
Proof. reflexivity. Qed.

Lemma substring_all (s : string) : substring 0 (String.length s) s = s.
Proof. induction s as [|c s IH]; simpl; [reflexivity | now rewrite IH]. Qed.

Lemma substring_after (a b : string) :
  substring (String.length a) (String.length b) (a +:+ b) = b.
Proof. induction a as [|c a IH]; simpl; [apply substring_all | exact IH]. Qed.

Lemma substring_cut (s : string) (n : nat) :
  n <= String.length s ->
  s = substring 0 n s +:+ substring n (String.length s - n) s.
Proof.
  revert n; induction s as [|c s IH]; intros [|n] Hn; simpl in *;
    try reflexivity; try lia.
  - now rewrite substring_all.
  - rewrite append_String. f_equal. apply IH. lia.
Qed.

Lemma endswith_append (stem suffix : string) :
  PyStr.endswith (stem +:+ suffix) suffix = true.
Proof.
  unfold PyStr.endswith. rewrite length_append.
  destruct (Nat.leb_spec (String.length suffix)
              (String.length stem + String.length suffix)) as [_|H]; [|lia].
  replace (String.length stem + String.length suffix - String.length suffix)
    with (String.length stem) by lia.
  rewrite substring_after. apply String.eqb_refl.
Qed.

Lemma endswith_inv (s suffix : string) :
  PyStr.endswith s suffix = true -> exists stem, s = stem +:+ suffix.
Proof.
  unfold PyStr.endswith.
  destruct (Nat.leb_spec (String.length suffix) (String.length s)) as [Hle|];
    [|discriminate].
  intros H. apply String.eqb_eq in H.
  exists (substring 0 (String.length s - String.length suffix) s).
  rewrite (substring_cut s (String.length s - String.length suffix)) at 1 by lia.
  f_equal.
  replace (String.length s - (String.length s - String.length suffix))
    with (String.length suffix) by lia.
  exact H.
Qed.

Lemma endswith_iff (s suffix : string) :
  PyStr.endswith s suffix = true <-> exists stem, s = stem +:+ suffix.
Proof.
  split; [apply endswith_inv|]. intros [stem ->]. apply endswith_append.
Qed.

Lemma split_cons (sep : ascii) (s : string) :
  PyStr.split sep s =
    PyStr.before_first sep s ::
      match PyStr.after_first sep s with
      | Some rest => PyStr.split sep rest
      | None => []
      end.
Proof.
  induction s as [|c s IH]; simpl; [reflexivity|].
  destruct (Ascii.eqb c sep); [reflexivity|].
  rewrite IH. reflexivity.
Qed.

Lemma after_first_none (sep : ascii) (s : string) :
  PyStr.after_first sep s = None <-> PyStr.contains sep s = false.
Proof.
  induction s as [|c s IH]; simpl; [tauto|].
  destruct (Ascii.eqb c sep); simpl; [split; discriminate | exact IH].
Qed.

Lemma before_first_id (sep : ascii) (s : string) :
  PyStr.contains sep s = false -> PyStr.before_first sep s = s.
Proof.
  induction s as [|c s IH]; simpl; [reflexivity|].
  destruct (Ascii.eqb c sep); simpl; [discriminate|].
  intros H. now rewrite IH.
Qed.

Lemma replace_same (c : ascii) (s : string) :
  PyStr.replace c (String c EmptyString) s = s.
Proof.
  induction s as [|a s IH]; simpl; [reflexivity|].
  destruct (Ascii.eqb_spec a c) as [->|_]; simpl; now rewrite IH.
Qed.

End StringFacts.

Lemma img_data_fields (src : string) :
  img_data src =
    option_map (PyStr.before_first comma) (PyStr.after_first comma src).
Proof.
  unfold img_data. rewrite split_cons. simpl.
  destruct (PyStr.after_first comma src) as [rest|]; simpl; [|reflexivity].
  now rewrite split_cons.
Qed.

Lemma img_data_no_comma (src : string) :
  PyStr.contains comma src = false -> img_data src = None.
Proof.
  intros H. rewrite img_data_fields.
  apply after_first_none in H. now rewrite H.
Qed.

Lemma img_data_one_comma (src rest : string) :
  PyStr.after_first comma src = Some rest ->
  PyStr.contains comma rest = false ->
  img_data src = Some rest.
Proof.
  intros H1 H2. rewrite img_data_fields, H1. simpl.
  now rewrite before_first_id.
Qed.

(** ** The tree *)


Lemma descendants_tag (n : string) (a : gmap string string) (cs : list element) :
  descendants (Tag n a cs) = descendants_of_list cs.
Proof.
  unfold descendants_of_list. simpl.
  induction cs as [|c cs IH]; simpl; [reflexivity|]. now rewrite IH.
Qed.

Lemma descendants_of_list_cons (c : element) (cs : list element) :
  descendants_of_list (c :: cs) = c :: descendants c ++ descendants_of_list cs.
Proof. reflexivity. Qed.


Lemma append_empty (s : string) : s +:+ EmptyString = s.
Proof.
  induction s as [|c s IH]; [reflexivity|].
  rewrite append_String. now rewrite IH.
Qed.

Lemma append_assoc (a b c : string) : (a +:+ b) +:+ c = a +:+ (b +:+ c).
Proof.
  induction a as [|x a IH]; [reflexivity|].
  rewrite !append_String. now rewrite IH.
Qed.

Lemma join_app (l1 l2 : list string) : join (l1 ++ l2) = join l1 +:+ join l2.
Proof.
  induction l1 as [|x l1 IH]; [reflexivity|].
  simpl. rewrite IH. symmetry. apply append_assoc.
Qed.

(** The flattened text of a node is the text of the text nodes at and
    below it, in document order; names and attributes play no part. *)
Lemma get_text_flat (e : element) :
  get_text e = own_text e +:+ join (map own_text (descendants e)).
Proof.
  induction e as [s|s|n a cs IH] using element_nested_ind.
  - simpl. now rewrite append_empty.
  - reflexivity.
  - rewrite descendants_tag. cbn [own_text].
    change (EmptyString +:+ ?x) with x.
    change (get_text (Tag n a cs)) with
      ((fix cat (l : list element) : string :=
          match l with
          | [] => EmptyString
          | c :: l' => get_text c +:+ cat l'
          end) cs).
    induction cs as [|c cs IHcs]; [reflexivity|].
    apply List.Forall_cons_iff in IH as [IHc IHrest].
    rewrite descendants_of_list_cons. cbn [map].
    rewrite map_app. cbn [join fold_right]. fold (join (map own_text (descendants c) ++ map own_text (descendants_of_list cs))).
    rewrite join_app, (IHcs IHrest), IHc.
    now rewrite append_assoc.
Qed.

Lemma find_body_none (soup : list element) :
  find_body soup = None <->
  forall e, In e (descendants_of_list soup) -> name e <> Some "body".
Proof.
  unfold find_body. split.
  - intros H e Hin Hn.
    pose proof (find_none _ _ H e Hin) as Hf.
    unfold has_name in Hf. rewrite Hn in Hf.
    now rewrite String.eqb_refl in Hf.
  - intros H. destruct (find _ _) as [b|] eqn:E; [|reflexivity].
    apply find_some in E as [Hin Hn]. exfalso. apply (H b Hin).
    unfold has_name in Hn. destruct (name b) as [m|]; [|discriminate].
    apply String.eqb_eq in Hn. now subst.
Qed.

Lemma has_name_p_img (e : element) :
  has_name "img" e = true -> has_name "p" e = false.
Proof.
  unfold has_name. destruct (name e) as [m|]; [|reflexivity].
  intros H. apply String.eqb_eq in H. now subst.
Qed.

(** ** One visit and the loop, apart from the world they run in *)

Lemma insert_at_end {A} (l : list A) (x y : A) :
  <[length l := y]> (l ++ [ x ]) = l ++ [ y ].
Proof. induction l as [|a l IH]; simpl; [reflexivity | now rewrite IH]. Qed.

Lemma lookup_at_end {A} (l : list A) (x : A) :
  (l ++ [ x ]) !! length l = Some x.
Proof. induction l as [|a l IH]; simpl; [reflexivity | exact IH]. Qed.

Lemma with_tmp_same (w : world) : with_tmp (tmp w ++ []) w = w.
Proof. destruct w. unfold with_tmp. simpl. now rewrite app_nil_r. Qed.

Lemma with_tmp_same_raw (w : world) :
  World (editor w) (fs w) (tmp w ++ []) = w.
Proof. exact (with_tmp_same w). Qed.

Ltac run :=
  cbv beta iota zeta delta
    [bind ret raise lift try_except reraise toHtml getitem index
     NamedTemporaryFile image_save add_picture document_save
     body_descendants add_paragraph with_tmp with_fs fst snd extend img_data];
  cbn [tmp fs editor].

Section Traces.

Context {P : Platform}.

Lemma image_steps (k : exn -> exn) (d : document) (e : element) (w : world) :
  has_name "img" e = true ->
  try_except
    (src <- getitem e "src" ;;
     data <- index (PyStr.split comma src) 1 ;;
     image_bytes <- lift (b64decode data) ;;
     im <- lift (Image_open image_bytes) ;;
     temp_image <- NamedTemporaryFile ;;
     image_save im temp_image ;;;
     add_picture d temp_image (Inches 4))
    (fun x => raise (k x)) w =
  (extend d (fst (visit_trace k e)),
   with_tmp (tmp w ++ snd (visit_trace k e)) w).
Proof.
  intros Himg. unfold visit_trace.
  rewrite (has_name_p_img e Himg), Himg.
  destruct e as [s|s|n attrs cs]; try discriminate.
  unfold read_image. run.
  change ("'" +:+ "src" +:+ "'") with "'src'".
  destruct (attrs !! "src") as [src|]; run;
    [|now rewrite with_tmp_same_raw].
  destruct (nth_error (PyStr.split comma src) 1) as [data|]; run;
    [|now rewrite with_tmp_same_raw].
  destruct (b64decode data) as [raw|x]; run; [|now rewrite with_tmp_same_raw].
  destruct (Image_open raw) as [im|x]; run; [|now rewrite with_tmp_same_raw].
  destruct (save_png im) as [png|x]; run; [|reflexivity].
  rewrite insert_at_end, lookup_at_end. reflexivity.
Qed.

Lemma try_except_raise {A} (m : M A) (w : world) :
  try_except m (fun x => raise x) w = m w.
Proof. unfold try_except. now destruct (m w) as [[a|x] w']. Qed.

Lemma NoteApp_visit_follows : follows (fun x => x) NoteApp.visit.
Proof.
  intros d e w. unfold NoteApp.visit.
  destruct (has_name "p" e) eqn:Hp.
  - unfold visit_trace. rewrite Hp. run.
    destruct (run_text (get_text e)) as [[]|x]; now rewrite with_tmp_same_raw.
  - destruct (has_name "img" e) eqn:Himg.
    + rewrite <- (image_steps (fun x => x) d e w Himg).
      now rewrite try_except_raise.
    + unfold visit_trace. rewrite Hp, Himg. run.
      now rewrite app_nil_r, with_tmp_same_raw.
Qed.

Lemma NoteModel_visit_follows : follows image_failed NoteModel.visit.
Proof.
  intros d e w. unfold NoteModel.visit.
  destruct (has_name "p" e) eqn:Hp.
  - unfold visit_trace. rewrite Hp. run.
    destruct (run_text (get_text e)) as [[]|x]; now rewrite with_tmp_same_raw.
  - destruct (has_name "img" e) eqn:Himg.
    + rewrite <- (image_steps image_failed d e w Himg). reflexivity.
    + unfold visit_trace. rewrite Hp, Himg. run.
      now rewrite app_nil_r, with_tmp_same_raw.
Qed.

Lemma loop_follows (k : exn -> exn) (visit : document -> element -> M document) :
  follows k visit ->
  forall es d w,
    for_each es d visit w =
      (extend d (fst (loop_trace k es)),
       with_tmp (tmp w ++ snd (loop_trace k es)) w).
Proof.
  intros Hv es. induction es as [|e es IH]; intros d w; simpl.
  - run. now rewrite app_nil_r, with_tmp_same_raw.
  - unfold bind. rewrite Hv.
    destruct (visit_trace k e) as [[blocks|x] t]; simpl; [|reflexivity].
    rewrite IH.
    destruct (loop_trace k es) as [[blocks'|x] t']; simpl;
      unfold with_tmp; simpl; now rewrite <- ?app_assoc.
Qed.

Lemma NoteApp_assemble_run (w : world) :
  NoteApp.assemble w =
    (fst (assemble_trace (fun x => x) (editor w)),
     with_tmp (tmp w ++ snd (assemble_trace (fun x => x) (editor w))) w).
Proof.
  unfold NoteApp.assemble, assemble_trace, toHtml, body_descendants, bind.
  destruct (find_body (html_parser (editor w))) as [body|]; simpl.
  - unfold ret. rewrite (loop_follows _ _ NoteApp_visit_follows).
    now destruct (fst (loop_trace _ _)).
  - unfold raise. now rewrite with_tmp_same.
Qed.

Lemma NoteModel_assemble_run (html : string) (w : world) :
  NoteModel.assemble html w =
    (fst (assemble_trace image_failed html),
     with_tmp (tmp w ++ snd (assemble_trace image_failed html)) w).
Proof.
  unfold NoteModel.assemble, assemble_trace, body_descendants, bind.
  destruct (find_body (html_parser html)) as [body|]; simpl.
  - unfold ret. rewrite (loop_follows _ _ NoteModel_visit_follows).
    now destruct (fst (loop_trace _ _)).
  - unfold raise. now rewrite with_tmp_same.
Qed.

End Traces.

(** ** What a successful walk appends *)

Section Walks.

Context {P : Platform}.

Lemma read_image_picture (e : element) (im : image) (png : bytes) :
  read_image e = Ok im -> save_png im = Ok png -> picture_bytes e png.
Proof.
  unfold read_image, picture_bytes. intros H Hs.
  destruct e as [s|s|n attrs cs]; try discriminate.
  destruct (attrs !! "src") as [src|] eqn:Ha; [|discriminate].
  destruct (img_data src) as [data|] eqn:Hd; [|discriminate].
  destruct (b64decode data) as [raw|x] eqn:Hb; [|discriminate].
  exists n, attrs, cs, src, data, raw, im. tauto.
Qed.

Lemma picture_read_image (e : element) (png : bytes) :
  picture_bytes e png ->
  exists im, read_image e = Ok im /\ save_png im = Ok png.
Proof.
  intros (n & attrs & cs & src & data & raw & im & -> & Ha & Hd & Hb & Ho & Hs).
  exists im. split; [|exact Hs].
  unfold read_image. now rewrite Ha, Hd, Hb.
Qed.

Lemma visit_trace_ok (k : exn -> exn) (e : element) blocks temps :
  visit_trace k e = (Ok blocks, temps) -> visited e blocks temps.
Proof.
  unfold visit_trace.
  destruct (has_name "p" e) eqn:Hp.
  - destruct (run_text (get_text e)) as [[]|x] eqn:Ht; [|discriminate].
    intros [= <- <-]. now constructor.
  - destruct (has_name "img" e) eqn:Himg.
    + destruct (read_image e) as [im|x] eqn:Hr; [|discriminate].
      destruct (save_png im) as [png|x] eqn:Hs; [|discriminate].
      intros [= <- <-]. constructor; [exact Himg|].
      eapply read_image_picture; eassumption.
    + intros [= <- <-]. now constructor.
Qed.

Lemma visited_trace (k : exn -> exn) (e : element) blocks temps :
  visited e blocks temps -> visit_trace k e = (Ok blocks, temps).
Proof.
  unfold visit_trace. intros [e' Hp Ht | e' png Himg Hpic | e' Hp Himg].
  - now rewrite Hp, Ht.
  - rewrite (has_name_p_img e' Himg), Himg.
    destruct (picture_read_image e' png Hpic) as (im & -> & ->). reflexivity.
  - now rewrite Hp, Himg.
Qed.

Lemma loop_trace_ok (k : exn -> exn) (es : list element) blocks temps :
  loop_trace k es = (Ok blocks, temps) -> walked es blocks temps.
Proof.
  revert blocks temps. induction es as [|e es IH]; simpl; intros blocks temps.
  - intros [= <- <-]. constructor.
  - destruct (visit_trace k e) as [[b|x] t] eqn:Hv; [|discriminate].
    destruct (loop_trace k es) as [[b'|x] t'] eqn:Hl; [|discriminate].
    intros [= <- <-]. constructor; [|now apply IH].
    eapply visit_trace_ok; eassumption.
Qed.

Lemma walked_trace (k : exn -> exn) (es : list element) blocks temps :
  walked es blocks temps -> loop_trace k es = (Ok blocks, temps).
Proof.
  induction 1 as [|e es b t b' t' Hv _ IH]; simpl; [reflexivity|].
  now rewrite (visited_trace k e b t Hv), IH.
Qed.

(** With another [k] the loop makes the same temporary files and
    appends the same blocks, and raises for the same node: the same
    exception for a paragraph, the one [k] makes of it for an image. *)
Lemma visit_trace_wrap (k : exn -> exn) (e : element) :
  snd (visit_trace k e) = snd (visit_trace (fun x => x) e) /\
  match fst (visit_trace (fun x => x) e) with
  | Ok blocks => fst (visit_trace k e) = Ok blocks
  | Err x => fst (visit_trace k e) = Err x \/ fst (visit_trace k e) = Err (k x)
  end.
Proof.
  unfold visit_trace.
  destruct (has_name "p" e).
  { destruct (run_text (get_text e)) as [[]|x]; simpl; auto. }
  destruct (has_name "img" e); [|simpl; auto].
  destruct (read_image e) as [im|x]; [|simpl; auto].
  destruct (save_png im); simpl; auto.
Qed.

Lemma loop_trace_wrap (k : exn -> exn) (es : list element) :
  snd (loop_trace k es) = snd (loop_trace (fun x => x) es) /\
  match fst (loop_trace (fun x => x) es) with
  | Ok blocks => fst (loop_trace k es) = Ok blocks
  | Err x => fst (loop_trace k es) = Err x \/ fst (loop_trace k es) = Err (k x)
  end.
Proof.
  induction es as [|e es [IHt IHr]]; simpl; [auto|].
  destruct (visit_trace_wrap k e) as [Ht Hr].
  destruct (visit_trace k e) as [r t], (visit_trace (fun x => x) e) as [[b|x] t0];
    simpl in *; subst t0.
  - subst r.
    destruct (loop_trace k es) as [r' t'],
      (loop_trace (fun x => x) es) as [[b'|x'] t0']; simpl in *; subst t0'.
    + subst r'. auto.
    + destruct IHr as [-> | ->]; simpl; auto.
  - destruct Hr as [-> | ->]; simpl; auto.
Qed.


(** One failing visit fails the loop. *)
Lemma loop_trace_fails (k : exn -> exn) (es : list element) (e : element) :
  In e es ->
  is_ok (fst (visit_trace k e)) = false ->
  is_ok (fst (loop_trace k es)) = false.
Proof.
  induction es as [|e' es IH]; simpl; [tauto|].
  intros [-> | Hin] Hf.
  - destruct (visit_trace k e) as [[b|x] t]; simpl in *; [discriminate|reflexivity].
  - destruct (visit_trace k e') as [[b|x] t]; simpl; [|reflexivity].
    specialize (IH Hin Hf).
    now destruct (loop_trace k es) as [[b'|x] t'].
Qed.

Lemma loop_trace_no_img (k : exn -> exn) (es : list element) :
  (forall e, In e es -> has_name "img" e = false) ->
  (forall e, In e es -> has_name "p" e = true -> run_text (get_text e) = Ok tt) ->
  loop_trace k es = (Ok (flat_map paragraph_of es), []).
Proof.
  induction es as [|e es IH]; simpl; intros H Ht; [reflexivity|].
  rewrite IH by auto. unfold visit_trace, paragraph_of.
  destruct (has_name "p" e) eqn:Hp.
  - now rewrite (Ht e (or_introl eq_refl) Hp).
  - now rewrite (H e (or_introl eq_refl)).
Qed.

End Walks.

(** ** Whole calls *)

Lemma wraps_str (e e0 : exn) :
  wraps e e0 -> exists prefix, str e = prefix +:+ str e0.
Proof.
  induction 1 as [prefix e0 | prefix e e0 _ [q IH]]; cbn [str].
  - now exists prefix.
  - exists (prefix +:+ q). rewrite IH. symmetry. apply append_assoc.
Qed.

Lemma wraps_root_cause (e e0 : exn) :
  wraps e e0 -> root_cause e = root_cause e0.
Proof. induction 1; simpl; congruence. Qed.

Section Outcomes.

Context {P : Platform}.

Lemma NoteApp_save_as_docx_run (file_name : string) (w : world) :
  NoteApp.save_as_docx file_name w =
    docx_outcome (fun x => x) (editor w) file_name w.
Proof.
  unfold NoteApp.save_as_docx, docx_outcome, bind.
  rewrite NoteApp_assemble_run.
  destruct (assemble_trace _ _) as [[blocks|x] temps]; simpl; [|reflexivity].
  unfold document_save, bind, lift.
  now destruct (os_open file_name).
Qed.

Lemma NoteModel_save_as_docx_run (html file_name : string) (w : world) :
  NoteModel._save_as_docx html file_name w =
    on_error docx_failed (docx_outcome image_failed html file_name w).
Proof.
  unfold NoteModel._save_as_docx, docx_outcome, try_except, bind.
  rewrite NoteModel_assemble_run.
  destruct (assemble_trace _ _) as [[blocks|x] temps]; simpl; [|reflexivity].
  unfold document_save, bind, lift.
  now destruct (os_open file_name).
Qed.

Lemma write_text_run (file_name s : string) (w : world) :
  write_text file_name s w = text_outcome s file_name w.
Proof.
  unfold write_text, open_w, file_write, text_outcome, bind, lift.
  destruct (os_open file_name); [|reflexivity].
  unfold with_fs; simpl. now rewrite lookup_insert_eq, insert_insert_eq.
Qed.

Lemma NoteApp_text_is_write_text (file_name : string) (w : world) :
  (file <- open_w file_name ;;
   html_content <- toHtml ;;
   file_write file html_content) w =
  write_text file_name (editor w) w.
Proof.
  unfold write_text, open_w, file_write, toHtml, bind, lift.
  now destruct (os_open file_name).
Qed.

Lemma NoteApp_save_to_file_run (file_name : string) (w : world) :
  NoteApp.save_to_file file_name w =
    if PyStr.endswith file_name ".docx"
    then docx_outcome (fun x => x) (editor w) file_name w
    else text_outcome (editor w) file_name w.
Proof.
  unfold NoteApp.save_to_file.
  destruct (PyStr.endswith file_name ".docx").
  - apply NoteApp_save_as_docx_run.
  - rewrite NoteApp_text_is_write_text. apply write_text_run.
Qed.

Lemma NoteModel_save_to_file_run (content file_name : string) (w : world) :
  NoteModel.save_to_file content file_name w =
    on_error save_failed
      (returns_True
         (if PyStr.endswith file_name ".docx"
          then on_error docx_failed
                 (docx_outcome image_failed content file_name w)
          else text_outcome content file_name w)).
Proof.
  unfold NoteModel.save_to_file, try_except, bind.
  destruct (PyStr.endswith file_name ".docx").
  - rewrite NoteModel_save_as_docx_run.
    now destruct (docx_outcome _ _ _ _) as [[u|x] w'].
  - rewrite write_text_run.
    now destruct (text_outcome _ _ _) as [[u|x] w'].
Qed.

(** The two loops fail together, [2.py] with one more wrapper for an
    image. *)
Lemma assemble_trace_wrap (html : string) :
  snd (assemble_trace image_failed html) =
    snd (assemble_trace (fun x => x) html) /\
  match fst (assemble_trace (fun x => x) html) with
  | Ok blocks => fst (assemble_trace image_failed html) = Ok blocks
  | Err x =>
      fst (assemble_trace image_failed html) = Err x \/
      fst (assemble_trace image_failed html) = Err (image_failed x)
  end.
Proof.
  unfold assemble_trace.
  destruct (find_body (html_parser html)); [|simpl; auto].
  apply loop_trace_wrap.
Qed.

Lemma docx_outcomes_agree (html file_name : string) (w : world) :
  match docx_outcome (fun x => x) html file_name w with
  | (Ok _, w1) =>
      docx_outcome image_failed html file_name w = (Ok tt, w1)
  | (Err e0, w1) =>
      exists e, docx_outcome image_failed html file_name w = (Err e, w1) /\
                (e = e0 \/ e = image_failed e0)
  end.
Proof.
  unfold docx_outcome. destruct (assemble_trace_wrap html) as [Ht Hr].
  destruct (assemble_trace image_failed html) as [r t],
    (assemble_trace (fun x => x) html) as [[b|x] t0]; simpl in *; subst t0.
  - subst r. destruct (os_open file_name) as [[]|x]; eauto.
  - destruct Hr as [-> | ->]; eauto.
Qed.

End Outcomes.

(** * The claims *)

Section Paragraphs.

Context {P : Platform}.

Lemma visited_contributes (e : element) blocks temps :
  visited e blocks temps -> contributes e blocks.
Proof.
  unfold contributes. intros [e' Hp Ht | e' png Himg Hpic | e' Hp Himg].
  - now rewrite Hp.
  - rewrite (has_name_p_img e' Himg), Himg. eauto.
  - now rewrite Hp, Himg.
Qed.

Lemma walked_contributes (es : list element) blocks temps :
  walked es blocks temps ->
  exists chunks, Forall2 contributes es chunks /\ blocks = concat chunks.
Proof.
  induction 1 as [|e es b t b' t' Hv _ (chunks & HF & ->)].
  - exists []. split; [constructor | reflexivity].
  - exists (b :: chunks). split; [|reflexivity].
    constructor; [|exact HF]. eapply visited_contributes; eassumption.
Qed.

Lemma docx_outcome_walk (k : exn -> exn) (html file_name : string) (w w' : world) :
  docx_outcome k html file_name w = (Ok tt, w') ->
  exists body blocks temps,
    find_body (html_parser html) = Some body /\
    walked (descendants body) blocks temps /\
    os_open file_name = Ok tt /\
    w' = World (editor w) (<[file_name := Docx blocks]> (fs w)) (tmp w ++ temps).
Proof.
  unfold docx_outcome, assemble_trace.
  destruct (find_body (html_parser html)) as [body|]; [|discriminate].
  destruct (loop_trace k (descendants body)) as [[blocks|x] temps] eqn:Hl;
    [|discriminate].
  destruct (os_open file_name) as [[]|x] eqn:Ho; [|discriminate].
  intros [= <-]. exists body, blocks, temps.
  repeat split. eapply loop_trace_ok; eassumption.
Qed.

Lemma NoteModel_docx_ok (html file_name : string) (w w' : world) :
  NoteModel._save_as_docx html file_name w = (Ok tt, w') <->
  docx_outcome image_failed html file_name w = (Ok tt, w').
Proof.
  rewrite NoteModel_save_as_docx_run.
  destruct (docx_outcome _ _ _ _) as [[[]|x] w1]; simpl; split;
    congruence.
Qed.

Lemma outcome_holds_the_walk (k : exn -> exn) (html file_name : string) (w w' : world) :
  docx_outcome k html file_name w = (Ok tt, w') ->
  holds_the_walk html file_name w'.
Proof.
  intros H. apply docx_outcome_walk in H
    as (body & blocks & temps & Hb & Hw & _ & ->).
  destruct (walked_contributes _ _ _ Hw) as (chunks & HF & ->).
  exists body, chunks. repeat split; [exact Hb | exact HF|].
  simpl. apply lookup_insert_eq.
Qed.

(** C1. The descendants of a node are its children in document
    order, each followed by its own descendants, and the flattened
    text of a node is the text of the text nodes below it in that
    order, whatever tags and attributes are around them.  A DOCX
    export that
    succeeds leaves under the destination path the walk over the
    descendants of the body in that order: a [p] node adds exactly one
    paragraph holding its flattened text, an [img] node one picture,
    any other node nothing.  This holds for [NoteApp.save_as_docx] and for
    [NoteModel._save_as_docx]; and where the body has no [img] below
    it, python-docx takes the text of every [p] node below it and the
    path can be written, both succeed, with the paragraphs of the [p]
    nodes and nothing else. *)
Theorem docx_is_the_walk_over_the_body (file_name : string) (w : world) :
  (forall n attrs cs,
      descendants (Tag n attrs cs) =
        flat_map (fun c => c :: descendants c) cs) /\
  (forall e,
      get_text e = own_text e +:+ join (map own_text (descendants e))) /\
  (forall w',
      NoteApp.save_as_docx file_name w = (Ok tt, w') ->
      holds_the_walk (editor w) file_name w') /\
  (forall w',
      NoteModel._save_as_docx (editor w) file_name w = (Ok tt, w') ->
      holds_the_walk (editor w) file_name w') /\
  (forall body,
      find_body (html_parser (editor w)) = Some body ->
      Forall (fun e => has_name "img" e = false) (descendants body) ->
      Forall (fun e => has_name "p" e = true -> run_text (get_text e) = Ok tt)
        (descendants body) ->
      os_open file_name = Ok tt ->
      let paragraphs := flat_map paragraph_of (descendants body) in
      let w' := with_fs (<[file_name := Docx paragraphs]> (fs w)) w in
      NoteApp.save_as_docx file_name w = (Ok tt, w') /\
      NoteModel._save_as_docx (editor w) file_name w = (Ok tt, w')).
Proof.
  split; [exact descendants_tag|]. split; [exact get_text_flat|].
  split; [|split].
  - intros w'. rewrite NoteApp_save_as_docx_run.
    apply outcome_holds_the_walk.
  - intros w' H. apply NoteModel_docx_ok in H.
    eapply outcome_holds_the_walk; eassumption.
  - intros body Hb Hno Htext Ho paragraphs w'.
    rewrite List.Forall_forall in Hno, Htext.
    assert (Hout : forall k,
               docx_outcome k (editor w) file_name w = (Ok tt, w')).
    { intros k. unfold docx_outcome, assemble_trace.
      rewrite Hb, (loop_trace_no_img k _ Hno Htext), Ho.
      unfold w', with_fs. now rewrite app_nil_r. }
    split.
    + rewrite NoteApp_save_as_docx_run. apply Hout.
    + apply NoteModel_docx_ok, Hout.
Qed.

End Paragraphs.

(** The page with an image inside a paragraph, and the page with
    paragraphs only. *)
Lemma docx_is_the_walk_over_the_body_witness :
  let w := Machine.fresh "nested" in
  let v := Machine.fresh "paragraphs" in
  holds_the_walk (P := Machine.posix) "nested" "n.docx"
    (snd (NoteApp.save_as_docx (P := Machine.posix) "n.docx" w)) /\
  holds_the_walk (P := Machine.posix) "nested" "n.docx"
    (snd (NoteModel._save_as_docx (P := Machine.posix) "nested" "n.docx" w)) /\
  fs (snd (NoteApp.save_as_docx (P := Machine.posix) "p.docx" v)) !! "p.docx" =
    Some (Docx [ Paragraph "one"; Paragraph "two" ]).
Proof.
  intros w v.
  pose proof (docx_is_the_walk_over_the_body (P := Machine.posix) "n.docx" w)
    as (_ & _ & Happ & Hmodel & _).
  pose proof (docx_is_the_walk_over_the_body (P := Machine.posix) "p.docx" v)
    as (_ & _ & _ & _ & Hplain).
  split; [|split].
  - apply Happ. vm_compute. reflexivity.
  - apply Hmodel. vm_compute. reflexivity.
  - destruct (Hplain (Tag "body" ∅
                        [ Tag "p" ∅ [ NavigableString "one" ];
                          Tag "div" ∅
                            [ Tag "p" ∅
                                [ NavigableString "t";
                                  Tag "b" ∅ [ NavigableString "w" ];
                                  NavigableString "o" ] ] ]))
      as [E _].
    + vm_compute. reflexivity.
    + repeat constructor.
    + repeat (apply List.Forall_cons; [intros _; reflexivity|]).
      apply List.Forall_nil.
    + reflexivity.
    + rewrite E. vm_compute. reflexivity.
Defined.

Section Pictures.

Context {P : Platform}.

Lemma has_name_img_p (e : element) :
  has_name "p" e = true -> has_name "img" e = false.
Proof.
  unfold has_name. destruct (name e) as [m|]; [|reflexivity].
  intros H. apply String.eqb_eq in H. now subst.
Qed.

Lemma walked_pictures (es : list element) blocks temps :
  walked es blocks temps ->
  Forall2 picture_bytes (List.filter (has_name "img") es) temps /\
  List.filter is_picture blocks = map (fun png => Picture png (Inches 4)) temps.
Proof.
  induction 1 as [|e es b t b' t' Hv _ [IH1 IH2]]; simpl.
  - split; [constructor | reflexivity].
  - destruct Hv as [e Hp Ht | e png Himg Hpic | e Hp Himg].
    + rewrite (has_name_img_p e Hp). simpl. now split.
    + rewrite Himg. simpl. split; [now constructor | now rewrite IH2].
    + rewrite Himg. simpl. now split.
Qed.

Lemma outcome_pictures (k : exn -> exn) (html file_name : string) (w w' : world) :
  docx_outcome k html file_name w = (Ok tt, w') ->
  pictures_of_images html file_name w w'.
Proof.
  intros H. apply docx_outcome_walk in H
    as (body & blocks & temps & Hb & Hw & _ & ->).
  destruct (walked_pictures _ _ _ Hw) as [H1 H2].
  exists body, blocks, temps. simpl.
  repeat split; try assumption. apply lookup_insert_eq.
Qed.

(** C2, as amended.  The text an image element is decoded from is the
    second comma-separated field of its [src]: what follows the first
    comma up to the next comma, which is all of the remainder when no
    further comma follows.  In a DOCX export that succeeds, every
    [img] element below the body has had that text decoded from
    base64, opened as an image and saved as PNG into a temporary file
    of its own, made new for it, and the document holds one picture
    per such file, 4 inches wide, in the order of the elements.  This
    holds for [NoteApp.save_as_docx] and [NoteModel._save_as_docx]. *)
Theorem images_become_pictures (file_name : string) (w : world) :
  (forall src,
      img_data src =
        option_map (PyStr.before_first comma) (PyStr.after_first comma src)) /\
  (forall src rest,
      PyStr.after_first comma src = Some rest ->
      PyStr.contains comma rest = false ->
      img_data src = Some rest) /\
  Inches 4 = 3657600%Z /\
  (forall w',
      NoteApp.save_as_docx file_name w = (Ok tt, w') ->
      pictures_of_images (editor w) file_name w w') /\
  (forall w',
      NoteModel._save_as_docx (editor w) file_name w = (Ok tt, w') ->
      pictures_of_images (editor w) file_name w w').
Proof.
  split; [exact img_data_fields|].
  split; [exact img_data_one_comma|].
  split; [reflexivity|].
  split.
  - intros w'. rewrite NoteApp_save_as_docx_run. apply outcome_pictures.
  - intros w' H. apply NoteModel_docx_ok in H.
    eapply outcome_pictures; eassumption.
Qed.

End Pictures.

(** The page with an image inside a paragraph. *)
Lemma images_become_pictures_witness :
  let w := Machine.fresh "nested" in
  img_data "data:image/png;base64,iVBORw0KGgo=" = Some "iVBORw0KGgo=" /\
  pictures_of_images (P := Machine.posix) "nested" "n.docx" w
    (snd (NoteApp.save_as_docx (P := Machine.posix) "n.docx" w)) /\
  pictures_of_images (P := Machine.posix) "nested" "n.docx" w
    (snd (NoteModel._save_as_docx (P := Machine.posix) "nested" "n.docx" w)).
Proof.
  intros w.
  pose proof (images_become_pictures (P := Machine.posix) "n.docx" w)
    as (_ & Hone & _ & Happ & Hmodel).
  split; [|split].
  - apply Hone; vm_compute; reflexivity.
  - apply Happ. vm_compute. reflexivity.
  - apply Hmodel. vm_compute. reflexivity.
Defined.

(** C2, as stated, fails on a [src] with two commas: decoding all of
    the remainder would give a picture, and the code, which decodes
    the text between the two commas only, raises. *)
Lemma remainder_is_not_what_is_decoded :
  let src := "data:image/png;base64,iVBORw0K,Ggo=" in
  let img := Tag "img" {[ "src" := src ]} [] in
  PyStr.after_first comma src = Some "iVBORw0K,Ggo=" /\
  img_data src = Some "iVBORw0K" /\
  picture_bytes_of_remainder (P := Machine.posix) img Machine.png_signature /\
  NoteApp.visit (P := Machine.posix) [] img (Machine.fresh EmptyString) =
    (Err (Raised OSError "cannot identify image file"), Machine.fresh EmptyString) /\
  ~ picture_bytes (P := Machine.posix) img Machine.png_signature.
Proof.
  intros src img.
  split; [reflexivity|]. split; [reflexivity|]. split; [|split].
  - exists "img", {[ "src" := src ]}, [], src, "iVBORw0K,Ggo=",
      Machine.png_signature, Machine.png_signature.
    repeat split; vm_compute; reflexivity.
  - vm_compute. reflexivity.
  - intros (n & attrs & cs & src' & data & raw & im & E & Ha & Hd & Hb & Ho & _).
    injection E as <- <- <-.
    vm_compute in Ha. injection Ha as <-.
    vm_compute in Hd. injection Hd as <-.
    vm_compute in Hb. injection Hb as <-.
    vm_compute in Ho. discriminate.
Qed.

Section Formats.

Context {P : Platform}.

Lemma replace_absent (old : ascii) (new s : string) :
  PyStr.contains old s = false -> PyStr.replace old new s = s.
Proof.
  induction s as [|c s IH]; simpl; [reflexivity|].
  destruct (Ascii.eqb c old); simpl; [discriminate|].
  intros H. now rewrite IH.
Qed.

Lemma NoteModel_text_run (content file_name : string) (w : world) :
  PyStr.endswith file_name ".docx" = false ->
  NoteModel.save_to_file content file_name w =
    match os_open file_name with
    | Ok _ =>
        (Ok true, with_fs (<[file_name := Data (text_bytes content)]> (fs w)) w)
    | Err x => (Err (save_failed x), w)
    end.
Proof.
  intros H. rewrite NoteModel_save_to_file_run, H. unfold text_outcome.
  now destruct (os_open file_name).
Qed.

Lemma NoteApp_text_run (file_name : string) (w : world) :
  PyStr.endswith file_name ".docx" = false ->
  NoteApp.save_to_file file_name w =
    match os_open file_name with
    | Ok _ =>
        (Ok tt, with_fs (<[file_name := Data (text_bytes (editor w))]> (fs w)) w)
    | Err x => (Err x, w)
    end.
Proof.
  intros H. rewrite NoteApp_save_to_file_run, H. reflexivity.
Qed.

(** C3, as amended.  The format depends on the destination path
    only, and there on whether it ends with [".docx"]: such a path
    takes the DOCX conversion; any other path has the content handed
    as it is to a UTF-8 text file, which is created or replaced
    whatever the path held and then holds the UTF-8 bytes of the
    content with every line feed written as [os.linesep], the bytes
    of the content itself where [os.linesep] is the line feed or the
    content has no line feed; nothing of the DOCX conversion happens
    (no temporary file, no document), and where the path cannot be
    opened the call raises and nothing changes.  This holds for
    [NoteApp.save_to_file] on the content of the editor and for
    [NoteModel.save_to_file]. *)
Theorem format_follows_the_suffix (content file_name : string) (w : world) :
  (PyStr.endswith file_name ".docx" = true <->
   exists stem, file_name = stem +:+ ".docx") /\
  (PyStr.endswith file_name ".docx" = true ->
   NoteApp.save_to_file file_name w = NoteApp.save_as_docx file_name w /\
   NoteModel.save_to_file content file_name w =
     try_except
       (NoteModel._save_as_docx content file_name ;;; ret true)
       (reraise "Save failed: ") w) /\
  (PyStr.endswith file_name ".docx" = false ->
   NoteApp.save_to_file file_name w = write_text file_name (editor w) w /\
   NoteModel.save_to_file content file_name w =
     try_except
       (write_text file_name content ;;; ret true)
       (reraise "Save failed: ") w /\
   (os_open file_name = Ok tt ->
    NoteApp.save_to_file file_name w =
      (Ok tt,
       World (editor w)
         (<[file_name :=
              Data (list_byte_of_string
                      (PyStr.replace line_feed os_linesep (editor w)))]> (fs w))
         (tmp w)) /\
    NoteModel.save_to_file content file_name w =
      (Ok true,
       World (editor w)
         (<[file_name :=
              Data (list_byte_of_string
                      (PyStr.replace line_feed os_linesep content))]> (fs w))
         (tmp w))) /\
   (forall x,
       os_open file_name = Err x ->
       NoteApp.save_to_file file_name w = (Err x, w) /\
       NoteModel.save_to_file content file_name w = (Err (save_failed x), w)) /\
   (os_linesep = String line_feed EmptyString \/
    PyStr.contains line_feed content = false ->
    list_byte_of_string (PyStr.replace line_feed os_linesep content) =
    list_byte_of_string content)).
Proof.
  split; [apply endswith_iff|]. split.
  - intros H. unfold NoteApp.save_to_file, NoteModel.save_to_file.
    now rewrite H.
  - intros H. split; [|split; [|split; [|split]]].
    + unfold NoteApp.save_to_file. rewrite H.
      apply NoteApp_text_is_write_text.
    + unfold NoteModel.save_to_file. now rewrite H.
    + intros Ho. rewrite (NoteApp_text_run _ _ H), (NoteModel_text_run _ _ _ H).
      now rewrite Ho.
    + intros x Ho. rewrite (NoteApp_text_run _ _ H), (NoteModel_text_run _ _ _ H).
      now rewrite Ho.
    + intros [E | E].
      * now rewrite E, replace_same.
      * now rewrite replace_absent.
Qed.

(** C6, as amended.  An export to a path that does not end with
    [".docx"] and can be opened leaves under it the UTF-8 bytes of the
    content with every line feed written as [os.linesep], whatever the
    path held; reading the file gives these bytes, and a second export
    changes nothing.  These bytes are those of the content itself
    where [os.linesep] is the line feed, and where the content has no
    line feed. *)
Theorem text_export_round_trip (content file_name : string) (w : world) :
  PyStr.endswith file_name ".docx" = false ->
  os_open file_name = Ok tt ->
  let w' := with_fs (<[file_name := Data (text_bytes content)]> (fs w)) w in
  NoteModel.save_to_file content file_name w = (Ok true, w') /\
  NoteModel.save_to_file content file_name w' = (Ok true, w') /\
  (editor w = content ->
   NoteApp.save_to_file file_name w = (Ok tt, w') /\
   NoteApp.save_to_file file_name w' = (Ok tt, w')) /\
  fs w' !! file_name = Some (Data (text_bytes content)) /\
  (os_linesep = String line_feed EmptyString ->
   text_bytes content = list_byte_of_string content) /\
  (PyStr.contains line_feed content = false ->
   text_bytes content = list_byte_of_string content).
Proof.
  intros H Ho w'.
  assert (Hw' : with_fs (<[file_name := Data (text_bytes content)]> (fs w')) w' = w').
  { unfold w', with_fs. simpl. now rewrite insert_insert_eq. }
  repeat split.
  - rewrite (NoteModel_text_run _ _ _ H), Ho. reflexivity.
  - rewrite (NoteModel_text_run _ _ _ H), Ho. now rewrite Hw'.
  - rewrite (NoteApp_text_run _ _ H), Ho. now subst content.
  - rewrite (NoteApp_text_run _ _ H), Ho.
    replace (editor w') with content by (now subst content).
    now rewrite Hw'.
  - apply lookup_insert_eq.
  - intros E. unfold text_bytes. now rewrite E, replace_same.
  - intros E. unfold text_bytes. now rewrite replace_absent.
Qed.

End Formats.

(** A [.docx] path, an [.html] path and the empty path. *)
Lemma format_follows_the_suffix_witness :
  let w := Machine.fresh "nested" in
  NoteApp.save_to_file (P := Machine.posix) "n.docx" w =
    NoteApp.save_as_docx (P := Machine.posix) "n.docx" w /\
  NoteApp.save_to_file (P := Machine.posix) "n.html" w =
    (Ok tt,
     World "nested" (<["n.html" := Data (list_byte_of_string "nested")]> ∅) []) /\
  NoteModel.save_to_file (P := Machine.posix) "nested" EmptyString w =
    (Err (save_failed
            (Raised OSError "[Errno 2] No such file or directory: ''")), w) /\
  list_byte_of_string
    (PyStr.replace line_feed (os_linesep (Platform := Machine.posix))
       Machine.two_lines) =
  list_byte_of_string Machine.two_lines.
Proof.
  intros w.
  pose proof (format_follows_the_suffix (P := Machine.posix) "nested" "n.docx" w)
    as (_ & Hdocx & _).
  pose proof (format_follows_the_suffix (P := Machine.posix) "nested" "n.html" w)
    as (_ & _ & Htext).
  pose proof (format_follows_the_suffix (P := Machine.posix) "nested" EmptyString w)
    as (_ & _ & Hnone).
  pose proof (format_follows_the_suffix (P := Machine.posix)
                Machine.two_lines "n.html" w)
    as (_ & _ & Hbytes).
  split; [|split; [|split]].
  - apply Hdocx. reflexivity.
  - destruct (Htext eq_refl) as (_ & _ & Hok & _).
    apply Hok. reflexivity.
  - destruct (Hnone eq_refl) as (_ & _ & _ & Herr & _).
    apply Herr. reflexivity.
  - destruct (Hbytes eq_refl) as (_ & _ & _ & _ & Hsame).
    apply Hsame. left. reflexivity.
Defined.

(** C3, as stated, fails where [os.linesep] is not the line feed: what
    [main.py] leaves under a path without [.docx] is not the content
    byte for byte. *)
Lemma windows_text_is_not_verbatim :
  let content := String line_feed (String "x" (String line_feed EmptyString)) in
  let run :=
    NoteApp.save_to_file (P := Machine.windows) "notes.txt"
      (Machine.fresh content) in
  PyStr.endswith "notes.txt" ".docx" = false /\
  fst run = Ok tt /\
  fs (snd run) !! "notes.txt" =
    Some (Data [ x0d; x0a; x78; x0d; x0a ]%byte) /\
  list_byte_of_string content = [ x0a; x78; x0a ]%byte /\
  fs (snd run) !! "notes.txt" <> Some (Data (list_byte_of_string content)).
Proof.
  intros content run. split; [reflexivity|]. split; [reflexivity|].
  split; [vm_compute; reflexivity|]. split; [reflexivity|].
  vm_compute. discriminate.
Qed.

(** Two lines, where [os.linesep] is the line feed. *)
Lemma text_export_round_trip_witness :
  let w := Machine.fresh Machine.two_lines in
  let w' := World Machine.two_lines
              {[ "n.html" := Data (list_byte_of_string Machine.two_lines) ]} [] in
  NoteModel.save_to_file (P := Machine.posix) Machine.two_lines "n.html" w =
    (Ok true, w') /\
  NoteApp.save_to_file (P := Machine.posix) "n.html" w' = (Ok tt, w').
Proof.
  intros w w'.
  pose proof (text_export_round_trip (P := Machine.posix)
                Machine.two_lines "n.html" w eq_refl eq_refl)
    as (H1 & _ & H3 & _ & H5 & _).
  specialize (H5 eq_refl). destruct (H3 eq_refl) as [_ H4].
  cbv zeta in H1, H4. rewrite H5 in H1, H4.
  split; [exact H1 | exact H4].
Defined.

(** C6, as stated, fails where [os.linesep] is not the line feed: the
    bytes under the path are not those of the content. *)
Lemma windows_text_file_differs :
  let run :=
    NoteModel.save_to_file (P := Machine.windows) Machine.two_lines "n.html"
      (Machine.fresh Machine.two_lines) in
  PyStr.endswith "n.html" ".docx" = false /\
  fst run = Ok true /\
  fs (snd run) !! "n.html" =
    Some (Data (list_byte_of_string Machine.two_lines_crlf)) /\
  fs (snd run) !! "n.html" <>
    Some (Data (list_byte_of_string Machine.two_lines)).
Proof.
  intros run. split; [reflexivity|]. split; [reflexivity|].
  split; [vm_compute; reflexivity|].
  vm_compute. discriminate.
Qed.

Section Failures.

Context {P : Platform}.

Lemma wraps_save_docx (x : exn) : wraps (save_failed (docx_failed x)) x.
Proof. apply wraps_again, wraps_once. Qed.

Lemma wraps_save_docx_image (x : exn) :
  wraps (save_failed (docx_failed (image_failed x))) x.
Proof. apply wraps_again, wraps_again, wraps_once. Qed.

(** What [2.py] raises for what [main.py] raises, in a DOCX export. *)
Lemma docx_failures_agree (file_name : string) (w w1 : world) (e0 : exn) :
  docx_outcome (fun x => x) (editor w) file_name w = (Err e0, w1) ->
  exists e,
    docx_outcome image_failed (editor w) file_name w = (Err e, w1) /\
    (e = e0 \/ e = image_failed e0).
Proof.
  intros H. pose proof (docx_outcomes_agree (editor w) file_name w) as A.
  now rewrite H in A.
Qed.

Lemma docx_failures_agree_back (file_name : string) (w w1 : world) (e : exn) :
  docx_outcome image_failed (editor w) file_name w = (Err e, w1) ->
  exists e0,
    docx_outcome (fun x => x) (editor w) file_name w = (Err e0, w1) /\
    (e = e0 \/ e = image_failed e0).
Proof.
  intros H. pose proof (docx_outcomes_agree (editor w) file_name w) as A.
  destruct (docx_outcome (fun x => x) _ _ _) as [[[]|e0] w0].
  - rewrite A in H. discriminate.
  - destruct A as (e' & A & Hor). rewrite A in H. injection H as <- <-.
    eauto.
Qed.

(** C4. Whatever [NoteModel.save_to_file] raises is one [Exception]
    made in its own handler, with the message ["Save failed: "]
    followed by the message of what it caught, which it keeps as its
    context: nothing leaves unwrapped.  Every exception the steps of
    the export raise when nothing guards them (they are the steps of
    [NoteApp.save_to_file], on the same content and from the same
    world) makes the call raise such an exception around it, whose
    message ends with the message of that cause and whose chain of
    contexts ends where the chain of the cause ends; and the call
    raises for no other reason. *)
Theorem exceptions_leave_wrapped (file_name : string) (w : world) :
  (forall content e w',
      NoteModel.save_to_file content file_name w = (Err e, w') ->
      exists cause, e = Chained ("Save failed: " +:+ str cause) cause) /\
  (forall e0 w',
      NoteApp.save_to_file file_name w = (Err e0, w') ->
      exists e,
        NoteModel.save_to_file (editor w) file_name w = (Err e, w') /\
        wraps e e0 /\
        (exists prefix, str e = prefix +:+ str e0) /\
        root_cause e = root_cause e0) /\
  (forall e w',
      NoteModel.save_to_file (editor w) file_name w = (Err e, w') ->
      exists e0,
        NoteApp.save_to_file file_name w = (Err e0, w') /\ wraps e e0).
Proof.
  split; [|split].
  - intros content e w'. rewrite NoteModel_save_to_file_run.
    destruct (returns_True _) as [[b|x] w1]; simpl; [discriminate|].
    intros [= <- <-]. now exists x.
  - intros e0 w'.
    rewrite NoteApp_save_to_file_run, NoteModel_save_to_file_run.
    assert (Hfin : forall e, wraps e e0 ->
               wraps e e0 /\ (exists prefix, str e = prefix +:+ str e0) /\
               root_cause e = root_cause e0).
    { intros e He. auto using wraps_str, wraps_root_cause. }
    destruct (PyStr.endswith file_name ".docx").
    + intros H. apply docx_failures_agree in H as (e & -> & [-> | ->]); simpl.
      * eexists. split; [reflexivity|]. apply Hfin, wraps_save_docx.
      * eexists. split; [reflexivity|]. apply Hfin, wraps_save_docx_image.
    + intros ->. simpl. eexists. split; [reflexivity|].
      apply Hfin, wraps_once.
  - intros e w'.
    rewrite NoteApp_save_to_file_run, NoteModel_save_to_file_run.
    destruct (PyStr.endswith file_name ".docx").
    + destruct (docx_outcome image_failed _ _ _) as [[[]|x] w1] eqn:H; simpl;
        [discriminate|].
      intros [= <- <-].
      apply docx_failures_agree_back in H as (e0 & -> & [-> | ->]).
      * exists e0. split; [reflexivity | apply wraps_save_docx].
      * exists e0. split; [reflexivity | apply wraps_save_docx_image].
    + destruct (text_outcome _ _ _) as [[[]|x] w1]; simpl; [discriminate|].
      intros [= <- <-]. exists x. split; [reflexivity | apply wraps_once].
Qed.

End Failures.

(** The page whose image has no comma in its [src]. *)
Lemma exceptions_leave_wrapped_witness :
  let w := Machine.fresh "no comma" in
  let cause := Raised IndexError "list index out of range" in
  (exists c, save_failed (docx_failed (image_failed cause)) =
             Chained ("Save failed: " +:+ str c) c) /\
  (exists e,
      NoteModel.save_to_file (P := Machine.posix) "no comma" "n.docx" w = (Err e, w) /\
      wraps e cause /\
      (exists prefix, str e = prefix +:+ "list index out of range") /\
      root_cause e = cause) /\
  (exists e0,
      NoteApp.save_to_file (P := Machine.posix) "n.docx" w = (Err e0, w) /\
      wraps (save_failed (docx_failed (image_failed cause))) e0).
Proof.
  intros w cause.
  pose proof (exceptions_leave_wrapped (P := Machine.posix) "n.docx" w)
    as (Hall & Hup & Hdown).
  split; [|split].
  - apply (Hall "no comma" _ w). vm_compute. reflexivity.
  - apply (Hup cause w). vm_compute. reflexivity.
  - apply (Hdown _ w). vm_compute. reflexivity.
Defined.

Section Agreement.

Context {P : Platform}.

Lemma assembles_agree (w : world) (d : document) (w1 : world) :
  NoteApp.assemble w = (Ok d, w1) <->
  NoteModel.assemble (editor w) w = (Ok d, w1).
Proof.
  rewrite NoteApp_assemble_run, NoteModel_assemble_run.
  destruct (assemble_trace_wrap (editor w)) as [Ht Hr].
  destruct (assemble_trace image_failed (editor w)) as [r t],
    (assemble_trace (fun x => x) (editor w)) as [[b|x] t0];
    simpl in *; subst t0.
  - subst r. tauto.
  - destruct Hr as [-> | ->]; split; discriminate.
Qed.

Lemma save_as_docx_agree (file_name : string) (w w1 : world) :
  NoteApp.save_as_docx file_name w = (Ok tt, w1) <->
  NoteModel._save_as_docx (editor w) file_name w = (Ok tt, w1).
Proof.
  rewrite NoteApp_save_as_docx_run, NoteModel_docx_ok.
  pose proof (docx_outcomes_agree (editor w) file_name w) as A.
  destruct (docx_outcome (fun x => x) _ _ _) as [[[]|e0] w0].
  - rewrite A. tauto.
  - destruct A as (e & -> & _). split; discriminate.
Qed.

(** C10. On the same content, destination and world, the conversion
    of [main.py] and the one of [2.py] assemble the same document: the
    same paragraphs and pictures in the same order, from the same
    temporary files.  One succeeds exactly when the other does, they
    then leave the same world, with that document under the
    destination path; and when [main.py] raises [e0], [2.py] raises
    from the same world [e0] under its wrappers, which is the only
    difference. *)
Theorem the_two_conversions_agree (file_name : string) (w : world) :
  (forall d w1,
      NoteApp.assemble w = (Ok d, w1) <->
      NoteModel.assemble (editor w) w = (Ok d, w1)) /\
  (forall w1,
      NoteApp.save_as_docx file_name w = (Ok tt, w1) <->
      NoteModel._save_as_docx (editor w) file_name w = (Ok tt, w1)) /\
  (forall w1 w2,
      NoteApp.save_as_docx file_name w = (Ok tt, w1) ->
      NoteModel._save_as_docx (editor w) file_name w = (Ok tt, w2) ->
      w1 = w2 /\
      exists d wa,
        NoteApp.assemble w = (Ok d, wa) /\
        NoteModel.assemble (editor w) w = (Ok d, wa) /\
        fs w1 !! file_name = Some (Docx d)) /\
  (forall e0 w1,
      NoteApp.save_as_docx file_name w = (Err e0, w1) ->
      exists e,
        NoteModel._save_as_docx (editor w) file_name w = (Err e, w1) /\
        wraps e e0).
Proof.
  split; [intros d w1; apply assembles_agree|].
  split; [intros w1; apply save_as_docx_agree|].
  split.
  - intros w1 w2 H1 H2. apply save_as_docx_agree in H1 as H1'.
    split; [congruence|].
    unfold NoteApp.save_as_docx, bind in H1.
    destruct (NoteApp.assemble w) as [[d|x] wa] eqn:Ha; [|discriminate].
    exists d, wa. split; [reflexivity|].
    split; [now apply assembles_agree|].
    unfold document_save, bind, lift in H1.
    destruct (os_open file_name); [|discriminate].
    injection H1 as <-. simpl. apply lookup_insert_eq.
  - intros e0 w1. rewrite NoteApp_save_as_docx_run, NoteModel_save_as_docx_run.
    intros H. apply docx_failures_agree in H as (e & -> & [-> | ->]); simpl.
    + eexists. split; [reflexivity | apply (wraps_once "DOCX conversion failed: ")].
    + eexists. split; [reflexivity|].
      apply (wraps_again "DOCX conversion failed: "),
            (wraps_once "Image processing failed: ").
Qed.

End Agreement.

(** The page with an image inside a paragraph, and the page whose
    image has no comma in its [src]. *)
Lemma the_two_conversions_agree_witness :
  let w := Machine.fresh "nested" in
  let v := Machine.fresh "no comma" in
  let d := [ Paragraph "Hi there"; Picture Machine.png_signature 3657600 ] in
  let w1 := World "nested" {[ "n.docx" := Docx d ]} [ Machine.png_signature ] in
  NoteModel.assemble (P := Machine.posix) "nested" w =
    (Ok d, World "nested" ∅ [ Machine.png_signature ]) /\
  NoteModel._save_as_docx (P := Machine.posix) "nested" "n.docx" w = (Ok tt, w1) /\
  (w1 = w1 /\
   exists d' wa,
     NoteApp.assemble (P := Machine.posix) w = (Ok d', wa) /\
     NoteModel.assemble (P := Machine.posix) "nested" w = (Ok d', wa) /\
     fs w1 !! "n.docx" = Some (Docx d')) /\
  (exists e,
      NoteModel._save_as_docx (P := Machine.posix) "no comma" "n.docx" v = (Err e, v) /\
      wraps e (Raised IndexError "list index out of range")).
Proof.
  intros w v d w1.
  pose proof (the_two_conversions_agree (P := Machine.posix) "n.docx" w)
    as (Ha & Hs & Hboth & _).
  pose proof (the_two_conversions_agree (P := Machine.posix) "n.docx" v)
    as (_ & _ & _ & Hfail).
  split; [|split; [|split]].
  - apply Ha. vm_compute. reflexivity.
  - apply Hs. vm_compute. reflexivity.
  - apply Hboth; vm_compute; reflexivity.
  - apply Hfail. vm_compute. reflexivity.
Defined.

Section Independence.

Context {P : Platform}.

Lemma effect_on_nothing (path : string) (w : world) : effect_on path None [] w = w.
Proof. unfold effect_on. destruct w. simpl. now rewrite app_nil_r. Qed.

Lemma docx_outcome_frame (k : exn -> exn) (html path : string) :
  exists r written temps,
    forall w, docx_outcome k html path w = (r, effect_on path written temps w).
Proof.
  unfold docx_outcome.
  destruct (assemble_trace k html) as [[blocks|x] temps].
  - destruct (os_open path) as [[]|x].
    + now exists (Ok tt), (Some (Docx blocks)), temps.
    + now exists (Err x), None, temps.
  - now exists (Err x), None, temps.
Qed.

Lemma text_outcome_frame (s path : string) :
  exists r written temps,
    forall w, text_outcome s path w = (r, effect_on path written temps w).
Proof.
  unfold text_outcome. destruct (os_open path) as [[]|x].
  - exists (Ok tt), (Some (Data (text_bytes s))), []. intros w.
    unfold effect_on, with_fs. now rewrite app_nil_r.
  - exists (Err x), None, []. intros w. now rewrite effect_on_nothing.
Qed.

Lemma NoteApp_frame (html path : string) :
  exists r written temps,
    forall w, editor w = html ->
              NoteApp.save_to_file path w = (r, effect_on path written temps w).
Proof.
  destruct (docx_outcome_frame (fun x => x) html path) as (r & f & t & Hd).
  destruct (text_outcome_frame html path) as (r' & f' & t' & Ht).
  destruct (PyStr.endswith path ".docx") eqn:E.
  - exists r, f, t. intros w <-. rewrite NoteApp_save_to_file_run, E. apply Hd.
  - exists r', f', t'. intros w <-. rewrite NoteApp_save_to_file_run, E. apply Ht.
Qed.

Lemma NoteModel_frame (content path : string) :
  exists r written temps,
    forall w,
      NoteModel.save_to_file content path w = (r, effect_on path written temps w).
Proof.
  destruct (docx_outcome_frame image_failed content path) as (r & f & t & Hd).
  destruct (text_outcome_frame content path) as (r' & f' & t' & Ht).
  destruct (PyStr.endswith path ".docx") eqn:E.
  - exists (fst (on_error save_failed
                   (returns_True (on_error docx_failed (r, World EmptyString ∅ []))))),
      f, t.
    intros w. rewrite NoteModel_save_to_file_run, E, Hd. now destruct r as [[]|x].
  - exists (fst (on_error save_failed (returns_True (r', World EmptyString ∅ [])))), f', t'.
    intros w. rewrite NoteModel_save_to_file_run, E, Ht. now destruct r' as [[]|x].
Qed.

Lemma effects_do_not_interfere (p1 p2 : string) f1 t1 f2 t2 (w : world) :
  p1 <> p2 ->
  let w1 := effect_on p1 f1 t1 w in
  let w2 := effect_on p2 f2 t2 w1 in
  fs w2 !! p2 = fs (effect_on p2 f2 t2 w) !! p2 /\
  fs w2 !! p1 = fs w1 !! p1 /\
  editor w2 = editor w.
Proof.
  intros Hne w1 w2. unfold w2, w1, effect_on. simpl.
  repeat split.
  - destruct f2 as [f2|]; [now rewrite !lookup_insert_eq|].
    destruct f1 as [f1|]; [now rewrite lookup_insert_ne|reflexivity].
  - destruct f2 as [f2|]; [now rewrite lookup_insert_ne|reflexivity].
Qed.

(** C8. An export reads the content and leaves it as it was: what
    the editor holds is the same after the call.  Of two exports of
    the same content, one after the other and to different paths, the
    second returns or raises what it would from the world before the
    first, and leaves under its path what it would leave there then;
    what the first left under its own path is still there.  This
    holds for [NoteModel.save_to_file] and [NoteApp.save_to_file]. *)
Theorem exports_do_not_interfere (content p1 p2 : string) (w : world) :
  p1 <> p2 ->
  (let first := NoteModel.save_to_file content p1 w in
   let second := NoteModel.save_to_file content p2 (snd first) in
   let alone := NoteModel.save_to_file content p2 w in
   fst second = fst alone /\
   fs (snd second) !! p2 = fs (snd alone) !! p2 /\
   fs (snd second) !! p1 = fs (snd first) !! p1 /\
   editor (snd first) = editor w /\
   editor (snd second) = editor w) /\
  (let first := NoteApp.save_to_file p1 w in
   let second := NoteApp.save_to_file p2 (snd first) in
   let alone := NoteApp.save_to_file p2 w in
   fst second = fst alone /\
   fs (snd second) !! p2 = fs (snd alone) !! p2 /\
   fs (snd second) !! p1 = fs (snd first) !! p1 /\
   editor (snd first) = editor w /\
   editor (snd second) = editor w).
Proof.
  intros Hne. split.
  - destruct (NoteModel_frame content p1) as (r1 & f1 & t1 & H1).
    destruct (NoteModel_frame content p2) as (r2 & f2 & t2 & H2).
    cbv zeta. rewrite H1. cbn [snd]. rewrite !H2. cbn [fst snd].
    destruct (effects_do_not_interfere p1 p2 f1 t1 f2 t2 w Hne) as (A & B & C).
    repeat split; assumption.
  - destruct (NoteApp_frame (editor w) p1) as (r1 & f1 & t1 & H1).
    destruct (NoteApp_frame (editor w) p2) as (r2 & f2 & t2 & H2).
    cbv zeta. rewrite (H1 w eq_refl). cbn [snd].
    rewrite (H2 w eq_refl), (H2 (effect_on p1 f1 t1 w) eq_refl). cbn [fst snd].
    destruct (effects_do_not_interfere p1 p2 f1 t1 f2 t2 w Hne) as (A & B & C).
    repeat split; assumption.
Qed.

End Independence.

(** The same page saved under [a.docx] and then under [b.docx]. *)
Lemma exports_do_not_interfere_witness :
  let w := Machine.fresh "nested" in
  let d := Docx [ Paragraph "Hi there"; Picture Machine.png_signature 3657600 ] in
  let first := NoteModel.save_to_file (P := Machine.posix) "nested" "a.docx" w in
  let second := NoteModel.save_to_file (P := Machine.posix) "nested" "b.docx" (snd first) in
  fst second = Ok true /\
  fs (snd second) !! "b.docx" = Some d /\
  fs (snd second) !! "a.docx" = Some d /\
  editor (snd second) = "nested".
Proof.
  intros w d first second.
  destruct (exports_do_not_interfere (P := Machine.posix)
              "nested" "a.docx" "b.docx" w) as [(A & B & C & _ & E) _].
  - discriminate.
  - split; [|split; [|split]].
    + etransitivity; [exact A|]. vm_compute. reflexivity.
    + etransitivity; [exact B|]. vm_compute. reflexivity.
    + etransitivity; [exact C|]. vm_compute. reflexivity.
    + exact E.
Defined.

Section Images.

Context {P : Platform}.

Lemma malformed_visit_fails (k : exn -> exn) attrs cs src :
  attrs !! "src" = Some src ->
  malformed src ->
  is_ok (fst (visit_trace k (Tag "img" attrs cs))) = false.
Proof.
  intros Ha Hm.
  unfold visit_trace. cbn [has_name name].
  change (String.eqb "img" "p") with false.
  change (String.eqb "img" "img") with true.
  cbn iota. unfold read_image. rewrite Ha.
  destruct Hm as [s Hc | s data x Hd Hb | s data raw x Hd Hb Ho
                 | s data raw im x Hd Hb Ho Hs].
  - now rewrite (img_data_no_comma s Hc).
  - now rewrite Hd, Hb.
  - now rewrite Hd, Hb, Ho.
  - now rewrite Hd, Hb, Ho, Hs.
Qed.

Lemma docx_outcome_fails (k : exn -> exn) (html file_name : string) (w : world)
      body e :
  find_body (html_parser html) = Some body ->
  In e (descendants body) ->
  is_ok (fst (visit_trace k e)) = false ->
  exists x w', docx_outcome k html file_name w = (Err x, w') /\ fs w' = fs w.
Proof.
  intros Hb Hin Hf. unfold docx_outcome, assemble_trace. rewrite Hb.
  pose proof (loop_trace_fails k _ e Hin Hf) as Hl.
  destruct (loop_trace k (descendants body)) as [[b|x] t]; [discriminate|].
  now exists x, (with_tmp (tmp w ++ t) w).
Qed.


Lemma visited_img_inv (e : element) blocks temps :
  visited e blocks temps ->
  has_name "img" e = true ->
  exists png, picture_bytes e png /\ blocks = [ Picture png (Inches 4) ].
Proof.
  intros [e' Hp Ht | e' png Himg Hpic | e' Hp Himg] H; [|eauto|congruence].
  rewrite (has_name_img_p e' Hp) in H. discriminate.
Qed.

Lemma walked_image (es : list element) (e : element) blocks temps :
  walked es blocks temps ->
  In e es ->
  has_name "img" e = true ->
  exists png, picture_bytes e png /\ In (Picture png (Inches 4)) blocks.
Proof.
  induction 1 as [|e' es b t b' t' Hv _ IH]; [intros []|].
  intros [-> | Hin] Himg.
  - destruct (visited_img_inv _ _ _ Hv Himg) as (png & Hpic & ->).
    exists png. split; [exact Hpic | now left].
  - destruct (IH Hin Himg) as (png & Hpic & Hb).
    exists png. split; [exact Hpic | apply in_or_app; now right].
Qed.

Lemma outcome_image (k : exn -> exn) (html file_name : string) (w w' : world)
      body img :
  find_body (html_parser html) = Some body ->
  In img (descendants body) ->
  has_name "img" img = true ->
  docx_outcome k html file_name w = (Ok tt, w') ->
  has_picture_of img file_name w'.
Proof.
  intros Hb Hin Himg H.
  apply docx_outcome_walk in H as (body' & blocks & temps & Hb' & Hw & _ & ->).
  rewrite Hb in Hb'. injection Hb' as <-.
  destruct (walked_image _ _ _ _ Hw Hin Himg) as (png & Hpic & Hblocks).
  exists png, blocks. split; [exact Hpic|]. split; [|exact Hblocks].
  simpl. apply lookup_insert_eq.
Qed.

(** C5, as amended.  A DOCX export whose first body has below it an
    [img] element with a malformed [src] (no comma; or a payload, the
    second comma field, that [b64decode] rejects; or bytes PIL does
    not read as an image) raises, in [main.py] and in [2.py]: the
    document is not saved and no file is changed.  An image below the
    body is never skipped: an export that succeeds has a picture made
    of it in the document. *)
Theorem malformed_image_fails_the_export
        (file_name : string) (w : world) body attrs cs :
  PyStr.endswith file_name ".docx" = true ->
  find_body (html_parser (editor w)) = Some body ->
  In (Tag "img" attrs cs) (descendants body) ->
  (forall src,
      attrs !! "src" = Some src ->
      malformed src ->
      (exists x w',
          NoteApp.save_to_file file_name w = (Err x, w') /\ fs w' = fs w) /\
      (exists x w',
          NoteModel.save_to_file (editor w) file_name w = (Err x, w') /\
          fs w' = fs w)) /\
  (forall w',
      NoteApp.save_to_file file_name w = (Ok tt, w') ->
      has_picture_of (Tag "img" attrs cs) file_name w') /\
  (forall w',
      NoteModel.save_to_file (editor w) file_name w = (Ok true, w') ->
      has_picture_of (Tag "img" attrs cs) file_name w').
Proof.
  intros Hd Hb Hin. split; [|split].
  - intros src Ha Hm. split.
    + rewrite NoteApp_save_to_file_run, Hd.
      eapply docx_outcome_fails; [exact Hb | exact Hin|].
      now apply (malformed_visit_fails _ attrs cs src).
    + rewrite NoteModel_save_to_file_run, Hd.
      destruct (docx_outcome_fails image_failed (editor w) file_name w body _
                  Hb Hin (malformed_visit_fails _ attrs cs src Ha Hm))
        as (x & w' & -> & Hfs).
      simpl. eauto.
  - intros w'. rewrite NoteApp_save_to_file_run, Hd.
    now apply outcome_image with (body := body).
  - intros w'. rewrite NoteModel_save_to_file_run, Hd.
    destruct (docx_outcome image_failed _ _ _) as [[[]|x] w1] eqn:H; simpl;
      [|discriminate].
    intros [= <-]. now apply (outcome_image _ _ _ _ _ body _ Hb Hin eq_refl H).
Qed.




(** C9. Where the parsed tree has no tag named [body], the DOCX
    conversion raises the [AttributeError] of [None.descendants],
    [2.py] under its wrapper, before anything is made: the world is as
    it was, and no document, empty or not, is saved. *)
Theorem no_body_no_document (file_name : string) (w : world) :
  (forall e,
      In e (descendants_of_list (html_parser (editor w))) ->
      name e <> Some "body") ->
  NoteApp.save_as_docx file_name w =
    (Err (Raised AttributeError
            "'NoneType' object has no attribute 'descendants'"), w) /\
  NoteModel._save_as_docx (editor w) file_name w =
    (Err (Chained
            "DOCX conversion failed: 'NoneType' object has no attribute 'descendants'"
            (Raised AttributeError
               "'NoneType' object has no attribute 'descendants'")), w) /\
  (PyStr.endswith file_name ".docx" = true ->
   is_ok (fst (NoteApp.save_to_file file_name w)) = false /\
   is_ok (fst (NoteModel.save_to_file (editor w) file_name w)) = false /\
   snd (NoteApp.save_to_file file_name w) = w /\
   snd (NoteModel.save_to_file (editor w) file_name w) = w).
Proof.
  intros H. apply find_body_none in H.
  assert (Hout : forall k,
             docx_outcome k (editor w) file_name w = (Err no_body, w)).
  { intros k. unfold docx_outcome, assemble_trace. rewrite H.
    now rewrite with_tmp_same. }
  split; [|split].
  - rewrite NoteApp_save_as_docx_run. apply Hout.
  - rewrite NoteModel_save_as_docx_run, Hout. reflexivity.
  - intros Hd. rewrite NoteApp_save_to_file_run, NoteModel_save_to_file_run, Hd.
    rewrite !Hout. simpl. tauto.
Qed.

End Images.

(** The page whose image has no comma in its [src], and the page
    with a well-formed image. *)
Lemma malformed_image_fails_the_export_witness :
  let w := Machine.fresh "no comma" in
  let v := Machine.fresh "nested" in
  let img := Tag "img" (Machine.src_attr "data:image/png;base64,iVBORw0KGgo=") [] in
  ((exists x w',
       NoteApp.save_to_file (P := Machine.posix) "n.docx" w = (Err x, w') /\
       fs w' = fs w) /\
   (exists x w',
       NoteModel.save_to_file (P := Machine.posix) "no comma" "n.docx" w = (Err x, w') /\
       fs w' = fs w)) /\
  has_picture_of (P := Machine.posix) img "n.docx"
    (snd (NoteApp.save_to_file (P := Machine.posix) "n.docx" v)) /\
  has_picture_of (P := Machine.posix) img "n.docx"
    (snd (NoteModel.save_to_file (P := Machine.posix) "nested" "n.docx" v)).
Proof.
  intros w v img.
  destruct (malformed_image_fails_the_export (P := Machine.posix) "n.docx" w
              (Tag "body" ∅
                 [ Tag "p" ∅ [ NavigableString "a" ];
                   Tag "img" (Machine.src_attr "nocomma") [];
                   Tag "p" ∅ [ NavigableString "b" ] ])
              (Machine.src_attr "nocomma") [])
    as (Hfails & _ & _).
  { reflexivity. }
  { vm_compute. reflexivity. }
  { simpl. tauto. }
  destruct (malformed_image_fails_the_export (P := Machine.posix) "n.docx" v
              (Tag "body" ∅
                 [ Tag "p" ∅
                     [ NavigableString "Hi "; img; NavigableString "there" ];
                   Tag "span" ∅ [ NavigableString "x" ] ])
              (Machine.src_attr "data:image/png;base64,iVBORw0KGgo=") [])
    as (_ & Happ & Hmodel).
  { reflexivity. }
  { vm_compute. reflexivity. }
  { simpl. tauto. }
  split; [|split].
  - apply (Hfails "nocomma").
    + vm_compute. reflexivity.
    + apply malformed_no_comma. reflexivity.
  - apply Happ. vm_compute. reflexivity.
  - apply Hmodel. vm_compute. reflexivity.
Defined.

(** C5, as stated, fails on an image that is not below the body, which
    the walk does not reach: the export succeeds with the paragraph
    and no picture.  And what [b64decode] takes need not be valid
    base64: a stray character is skipped, and the export succeeds
    with the picture. *)
Lemma an_image_beside_the_body_is_skipped :
  let beside := Machine.fresh "image beside body" in
  let stray := Machine.fresh "stray character" in
  let img := Tag "img" (Machine.src_attr "nocomma") [] in
  In img (descendants_of_list
            (html_parser (Platform := Bench.picky) "image beside body")) /\
  malformed (P := Bench.picky) "nocomma" /\
  NoteApp.save_to_file (P := Bench.picky) "n.docx" beside =
    (Ok tt,
     World "image beside body" {[ "n.docx" := Docx [ Paragraph "a" ] ]} []) /\
  NoteModel.save_to_file (P := Bench.picky) "image beside body" "n.docx" beside =
    (Ok true,
     World "image beside body" {[ "n.docx" := Docx [ Paragraph "a" ] ]} []) /\
  Bench.valid_base64 "iVBO!Rw0KGgo=" = false /\
  img_data "data:image/png;base64,iVBO!Rw0KGgo=" = Some "iVBO!Rw0KGgo=" /\
  NoteApp.save_to_file (P := Bench.picky) "n.docx" stray =
    (Ok tt,
     World "stray character"
       {[ "n.docx" := Docx [ Picture Machine.png_signature 3657600 ] ]}
       [ Machine.png_signature ]).
Proof.
  intros beside stray img.
  split; [simpl; tauto|].
  split; [apply malformed_no_comma; reflexivity|].
  repeat (split; [vm_compute; reflexivity|]).
  vm_compute. reflexivity.
Qed.


(** Plain text, which parses to a single text node. *)
Lemma no_body_no_document_witness :
  let w := Machine.fresh "plain text" in
  NoteApp.save_as_docx (P := Machine.posix) "n.docx" w =
    (Err (Raised AttributeError
            "'NoneType' object has no attribute 'descendants'"), w) /\
  is_ok (fst (NoteModel.save_to_file (P := Machine.posix) "plain text" "n.docx" w))
    = false.
Proof.
  intros w.
  destruct (no_body_no_document (P := Machine.posix) "n.docx" w)
    as (Happ & _ & Hcall).
  - intros e [<- | []]. discriminate.
  - split; [exact Happ|]. apply Hcall. reflexivity.
Defined.

(** * Further properties of the code *)

(** ** Keys *)

Section KeyFacts.

Context {K : Qt}.

Lemma control_bit_of_control :
  ControlModifier <> 0%Z ->
  Z.land ControlModifier ControlModifier <> 0%Z.
Proof. now rewrite Z.land_diag. Qed.

Lemma control_bit_of_control_shift :
  ControlModifier <> 0%Z ->
  Z.land (Z.lor ControlModifier ShiftModifier) ControlModifier <> 0%Z.
Proof.
  intros H E. rewrite Z.land_lor_distr_l, Z.land_diag in E.
  apply Z.lor_eq_0_iff in E as [E _]. contradiction.
Qed.

Lemma no_control_bit (modifiers : Z) :
  ControlModifier <> 0%Z ->
  Z.land modifiers ControlModifier = 0%Z ->
  (modifiers =? ControlModifier)%Z = false /\
  (modifiers =? Z.lor ControlModifier ShiftModifier)%Z = false.
Proof.
  intros H E. split; apply Z.eqb_neq; intros ->.
  - now apply control_bit_of_control.
  - now apply control_bit_of_control_shift.
Qed.

(** X1. A key press whose modifiers do not have the bit of the
    Control key takes no shortcut, whatever the key and the other
    modifiers: in [main.py] and in [2.py] it goes to the editor. *)
Theorem without_control_keys_are_typed (key modifiers : Z) :
  ControlModifier <> 0%Z ->
  Z.land modifiers ControlModifier = 0%Z ->
  NoteAppHandlers.custom_key_press key modifiers = to_keyPressEvent /\
  NoteController.custom_key_press key modifiers = to_keyPressEvent.
Proof.
  intros H E. destruct (no_control_bit modifiers H E) as [E1 E2].
  unfold NoteAppHandlers.custom_key_press, NoteController.custom_key_press.
  rewrite E1, E2, !andb_false_r. now split.
Qed.

(** X2. The two windows save on the same key presses: a press is
    Save, or Save As, in [main.py] exactly when it is in [2.py].  The
    presses that are Save and Exit in [main.py] are those on which
    [2.py] raises [AttributeError], its controller having no
    [save_and_exit].  On every key but Q, V, Z and Y the two take the
    same branch. *)
Theorem the_two_windows_save_on_the_same_keys (key modifiers : Z) :
  (forall h,
      In h [ to_save_note; to_save_as_note ] ->
      NoteAppHandlers.custom_key_press key modifiers = h <->
      NoteController.custom_key_press key modifiers = h) /\
  (NoteAppHandlers.custom_key_press key modifiers = to_save_and_exit <->
   NoteController.custom_key_press key modifiers =
     raises_AttributeError NoteController.no_save_and_exit) /\
  (forall h, NoteController.custom_key_press key modifiers <> to_save_and_exit /\
             NoteController.custom_key_press key modifiers <> to_paste_content /\
             NoteAppHandlers.custom_key_press key modifiers <>
               raises_AttributeError h) /\
  (key <> Key_Q -> key <> Key_V -> key <> Key_Z -> key <> Key_Y ->
   NoteAppHandlers.custom_key_press key modifiers =
   NoteController.custom_key_press key modifiers).
Proof.
  unfold NoteAppHandlers.custom_key_press, NoteController.custom_key_press.
  split; [|split; [|split]].
  - intros h Hh.
    destruct ((key =? Key_S)%Z && (modifiers =? ControlModifier)%Z); [tauto|].
    destruct ((key =? Key_S)%Z
              && (modifiers =? Z.lor ControlModifier ShiftModifier)%Z); [tauto|].
    destruct ((key =? Key_Q)%Z && (modifiers =? ControlModifier)%Z),
      ((key =? Key_V)%Z && (modifiers =? ControlModifier)%Z),
      ((key =? Key_Z)%Z && (modifiers =? ControlModifier)%Z),
      ((key =? Key_Y)%Z && (modifiers =? ControlModifier)%Z);
      simpl in Hh; destruct Hh as [<- | [<- | []]];
      split; discriminate.
  - destruct ((key =? Key_S)%Z && (modifiers =? ControlModifier)%Z);
      [split; discriminate|].
    destruct ((key =? Key_S)%Z
              && (modifiers =? Z.lor ControlModifier ShiftModifier)%Z);
      [split; discriminate|].
    destruct ((key =? Key_Q)%Z && (modifiers =? ControlModifier)%Z);
      [split; reflexivity|].
    destruct ((key =? Key_V)%Z && (modifiers =? ControlModifier)%Z),
      ((key =? Key_Z)%Z && (modifiers =? ControlModifier)%Z),
      ((key =? Key_Y)%Z && (modifiers =? ControlModifier)%Z);
      split; discriminate.
  - intros h.
    destruct ((key =? Key_S)%Z && (modifiers =? ControlModifier)%Z),
      ((key =? Key_S)%Z
       && (modifiers =? Z.lor ControlModifier ShiftModifier)%Z),
      ((key =? Key_Q)%Z && (modifiers =? ControlModifier)%Z),
      ((key =? Key_V)%Z && (modifiers =? ControlModifier)%Z),
      ((key =? Key_Z)%Z && (modifiers =? ControlModifier)%Z),
      ((key =? Key_Y)%Z && (modifiers =? ControlModifier)%Z);
      repeat split; discriminate.
  - intros HQ HV HZ HY.
    apply Z.eqb_neq in HQ, HV, HZ, HY. rewrite HQ, HV, HZ, HY. reflexivity.
Qed.

End KeyFacts.

(** Alt+S, and Ctrl+S, Ctrl+Q and Ctrl+A, with the codes of Qt 5. *)
Lemma without_control_keys_are_typed_witness :
  NoteAppHandlers.custom_key_press (K := qt5) 83 134217728 = to_keyPressEvent /\
  NoteController.custom_key_press (K := qt5) 83 134217728 = to_keyPressEvent.
Proof.
  apply (without_control_keys_are_typed (K := qt5) 83 134217728).
  - discriminate.
  - reflexivity.
Defined.

Lemma the_two_windows_save_on_the_same_keys_witness :
  (NoteAppHandlers.custom_key_press (K := qt5) 83 67108864 = to_save_note <->
   NoteController.custom_key_press (K := qt5) 83 67108864 = to_save_note) /\
  (NoteAppHandlers.custom_key_press (K := qt5) 81 67108864 = to_save_and_exit <->
   NoteController.custom_key_press (K := qt5) 81 67108864 =
     raises_AttributeError NoteController.no_save_and_exit) /\
  NoteAppHandlers.custom_key_press (K := qt5) 65 67108864 =
  NoteController.custom_key_press (K := qt5) 65 67108864.
Proof.
  destruct (the_two_windows_save_on_the_same_keys (K := qt5) 83 67108864)
    as (Hsame & _).
  destruct (the_two_windows_save_on_the_same_keys (K := qt5) 81 67108864)
    as (_ & Hquit & _).
  destruct (the_two_windows_save_on_the_same_keys (K := qt5) 65 67108864)
    as (_ & _ & _ & Hkey).
  split; [|split].
  - apply Hsame. simpl. tauto.
  - exact Hquit.
  - apply Hkey; discriminate.
Defined.

(** ** Dragging the window *)

Section DragFacts.

Context {K : Qt}.

Lemma drag_holds (d : point) (moves : list point) (g : point) (f : frame) :
  drag_pos f = Some d ->
  drag (moves ++ [ g ]) f = (Ok tt, Frame (point_sub g d) (Some d)).
Proof.
  revert f. induction moves as [|m moves IH]; intros f Hd; simpl;
    unfold NoteAppHandlers.mouseMoveEvent; rewrite Z.eqb_refl, Hd.
  - reflexivity.
  - apply IH. reflexivity.
Qed.

Lemma int32_sub_r (a b : Z) : int32 (a - int32 b) = int32 (a - b).
Proof.
  unfold int32. f_equal.
  replace (a - ((b + 2147483648) mod 4294967296 - 2147483648) + 2147483648)%Z
    with (a + 4294967296 - (b + 2147483648) mod 4294967296)%Z by lia.
  rewrite Zminus_mod_idemp_r. f_equal. lia.
Qed.

Lemma int32_add_r (a b : Z) : int32 (a + int32 b) = int32 (a + b).
Proof.
  unfold int32. f_equal.
  replace (a + ((b + 2147483648) mod 4294967296 - 2147483648) + 2147483648)%Z
    with (a + (b + 2147483648) mod 4294967296)%Z by lia.
  rewrite Zplus_mod_idemp_r. f_equal. lia.
Qed.

Lemma int32_small (z : Z) : in_int32 z -> int32 z = z.
Proof.
  unfold in_int32, int32. intros H. rewrite Z.mod_small by lia. lia.
Qed.

Lemma point_back (g g0 p : point) :
  point_sub g (point_sub g0 p) = point_add p (point_sub g g0).
Proof.
  destruct g, g0, p. unfold point_sub, point_add. cbn [fst snd].
  rewrite !int32_sub_r, !int32_add_r. f_equal; f_equal; lia.
Qed.

Lemma point_back_exact (g g0 p : point) :
  in_int32 (fst p + (fst g - fst g0)) ->
  in_int32 (snd p + (snd g - snd g0)) ->
  point_add p (point_sub g g0) =
    (fst p + (fst g - fst g0), snd p + (snd g - snd g0))%Z.
Proof.
  intros Hx Hy. unfold point_sub, point_add. cbn [fst snd].
  rewrite !int32_add_r. now rewrite !int32_small.
Qed.

(** X3. Dragging: after a press of the left button at [g0] on a
    window at [p], any moves with the left button down that end at
    [g] leave the window at [p + (g - g0)] in the 32-bit arithmetic of
    [QPoint], whatever the moves in between: the point that was
    grabbed stays under the pointer and nothing adds up.  Where
    [p + (g - g0)] fits 32 bits, that is where the window is; the
    differences in between may wrap around.  A press of another
    button grabs nothing, a move with other buttons down moves
    nothing, and a move with the left button down on a window that
    was never pressed raises, as [drag_pos] is not set before the
    first press. *)
Theorem the_grabbed_point_follows_the_pointer
        (f : frame) (g0 : point) (moves : list point) (g : point) :
  (let pressed := snd (NoteAppHandlers.mousePressEvent LeftButton g0 f) in
   drag (moves ++ [ g ]) pressed =
     (Ok tt,
      Frame (point_add (topLeft f) (point_sub g g0))
        (Some (point_sub g0 (topLeft f))))) /\
  (let pressed := snd (NoteAppHandlers.mousePressEvent LeftButton g0 f) in
   in_int32 (fst (topLeft f) + (fst g - fst g0)) ->
   in_int32 (snd (topLeft f) + (snd g - snd g0)) ->
   topLeft (snd (drag (moves ++ [ g ]) pressed)) =
     (fst (topLeft f) + (fst g - fst g0),
      snd (topLeft f) + (snd g - snd g0))%Z) /\
  (forall button,
      button <> LeftButton ->
      NoteAppHandlers.mousePressEvent button g0 f = (Ok tt, f) /\
      NoteAppHandlers.mouseMoveEvent button g f = (Ok tt, f)) /\
  (drag_pos f = None ->
   NoteAppHandlers.mouseMoveEvent LeftButton g f =
     (Err (Raised AttributeError
             "'NoteApp' object has no attribute 'drag_pos'"), f)).
Proof.
  assert (Hdrag :
    drag (moves ++ [ g ])
      (snd (NoteAppHandlers.mousePressEvent LeftButton g0 f)) =
    (Ok tt,
     Frame (point_add (topLeft f) (point_sub g g0))
       (Some (point_sub g0 (topLeft f))))).
  { unfold NoteAppHandlers.mousePressEvent. rewrite Z.eqb_refl. cbn [snd].
    rewrite (drag_holds (point_sub g0 (topLeft f))) by reflexivity.
    now rewrite point_back. }
  split; [exact Hdrag|]. split; [|split].
  - intros pressed Hx Hy. subst pressed. rewrite Hdrag. cbn [snd topLeft].
    now apply point_back_exact.
  - intros button Hb. apply Z.eqb_neq in Hb.
    unfold NoteAppHandlers.mousePressEvent, NoteAppHandlers.mouseMoveEvent.
    now rewrite Hb.
  - intros Hd. unfold NoteAppHandlers.mouseMoveEvent.
    now rewrite Z.eqb_refl, Hd.
Qed.

End DragFacts.

(** A window at (100, 100) grabbed at (150, 120) and let go at
    (400, 300); the right button; a move before any press; and a
    window at the right end of the 32 bits, which one step to the
    right takes to the left end. *)
Lemma the_grabbed_point_follows_the_pointer_witness :
  let f := Frame (100, 100)%Z None in
  let far := Frame (2147483647, 0)%Z None in
  drag (K := qt5) [ (160, 125); (90, 400); (400, 300) ]%Z
    (snd (NoteAppHandlers.mousePressEvent (K := qt5) 1 (150, 120)%Z f)) =
    (Ok tt, Frame (350, 280)%Z (Some (50, 20)%Z)) /\
  topLeft
    (snd (drag (K := qt5) [ (160, 125); (90, 400); (400, 300) ]%Z
            (snd (NoteAppHandlers.mousePressEvent (K := qt5) 1 (150, 120)%Z f))))
    = (100 + (400 - 150), 100 + (300 - 120))%Z /\
  NoteAppHandlers.mousePressEvent (K := qt5) 2 (150, 120)%Z f = (Ok tt, f) /\
  NoteAppHandlers.mouseMoveEvent (K := qt5) 1 (400, 300)%Z f =
    (Err (Raised AttributeError
            "'NoteApp' object has no attribute 'drag_pos'"), f) /\
  drag (K := qt5) [ (1, 0)%Z ]
    (snd (NoteAppHandlers.mousePressEvent (K := qt5) 1 (0, 0)%Z far)) =
    (Ok tt, Frame (-2147483648, 0)%Z (Some (-2147483647, 0)%Z)).
Proof.
  intros f far.
  destruct (the_grabbed_point_follows_the_pointer (K := qt5) f (150, 120)%Z
              [ (160, 125); (90, 400) ]%Z (400, 300)%Z)
    as (Hdrag & Hexact & Hother & Hnone).
  destruct (the_grabbed_point_follows_the_pointer (K := qt5) far (0, 0)%Z
              [] (1, 0)%Z)
    as (Hfar & _).
  split; [exact Hdrag|]. split; [|split; [|split]].
  - apply Hexact; unfold in_int32; simpl; lia.
  - apply (Hother 2%Z). discriminate.
  - apply Hnone. reflexivity.
  - exact Hfar.
Defined.

(** ** What an export leaves behind *)

Section ExportFacts.

Context {P : Platform}.

Lemma NoteApp_effect (file_name : string) (w : world) :
  exists r written temps,
    NoteApp.save_to_file file_name w = (r, effect_on file_name written temps w).
Proof.
  destruct (NoteApp_frame (editor w) file_name) as (r & f & t & H).
  exists r, f, t. now apply H.
Qed.

Lemma effect_on_elsewhere (file_name path : string) f t (w : world) :
  path <> file_name ->
  fs (effect_on file_name f t w) !! path = fs w !! path.
Proof.
  intros Hne. unfold effect_on. simpl.
  destruct f; [now apply lookup_insert_ne|reflexivity].
Qed.

(** X4. An export changes no file but the one under its destination
    path, deletes and changes no temporary file that was there (the
    new ones come after the old), and leaves the text of the editor
    as it was; in [main.py] and in [2.py], raising or not. *)
Theorem an_export_touches_its_destination_only
        (content file_name : string) (w : world) :
  let app := snd (NoteApp.save_to_file file_name w) in
  let model := snd (NoteModel.save_to_file content file_name w) in
  (forall path,
      path <> file_name ->
      fs app !! path = fs w !! path /\ fs model !! path = fs w !! path) /\
  (exists new, tmp app = tmp w ++ new) /\
  (exists new, tmp model = tmp w ++ new) /\
  editor app = editor w /\
  editor model = editor w.
Proof.
  destruct (NoteApp_effect file_name w) as (r & f & t & Happ).
  destruct (NoteModel_frame content file_name) as (r' & f' & t' & Hmodel).
  cbv zeta. rewrite Happ, Hmodel. cbn [snd].
  split; [|split; [|split; [|split]]].
  - intros path Hne. split; now apply effect_on_elsewhere.
  - now exists t.
  - now exists t'.
  - reflexivity.
  - reflexivity.
Qed.

(** X5. An export that raises before anything is written has
    written nothing.  Where the destination cannot be opened the call
    raises, and where the conversion to DOCX raises the call raises
    what the conversion raised, in [2.py] under its two wrappers; in
    both cases every file, the one under the destination path too, is
    as it was. *)
Theorem an_export_raising_before_the_write_writes_nothing
        (content file_name : string) (w : world) :
  (forall x,
      os_open file_name = Err x ->
      (exists e w',
          NoteApp.save_to_file file_name w = (Err e, w') /\ fs w' = fs w) /\
      (exists e w',
          NoteModel.save_to_file content file_name w = (Err e, w') /\
          fs w' = fs w)) /\
  (PyStr.endswith file_name ".docx" = true ->
   (forall x w1,
       NoteApp.assemble w = (Err x, w1) ->
       NoteApp.save_to_file file_name w = (Err x, w1) /\ fs w1 = fs w) /\
   (forall x w1,
       NoteModel.assemble content w = (Err x, w1) ->
       NoteModel.save_to_file content file_name w =
         (Err (save_failed (docx_failed x)), w1) /\
       fs w1 = fs w)).
Proof.
  split.
  - intros x Hx.
    rewrite NoteApp_save_to_file_run, NoteModel_save_to_file_run.
    unfold docx_outcome, text_outcome. rewrite Hx.
    destruct (PyStr.endswith file_name ".docx").
    + destruct (assemble_trace (fun x => x) (editor w)) as [[b|y] t],
        (assemble_trace image_failed content) as [[b'|y'] t'];
        simpl; split; eexists _, _; split; reflexivity.
    + simpl. split; eexists _, _; split; reflexivity.
  - intros Hd. split; intros x w1.
    + rewrite NoteApp_assemble_run, NoteApp_save_to_file_run, Hd.
      unfold docx_outcome.
      destruct (assemble_trace (fun x => x) (editor w)) as [[b|y] t];
        simpl; [discriminate|].
      intros [= <- <-]. split; reflexivity.
    + rewrite NoteModel_assemble_run, NoteModel_save_to_file_run, Hd.
      unfold docx_outcome.
      destruct (assemble_trace image_failed content) as [[b|y] t];
        simpl; [discriminate|].
      intros [= <- <-]. split; reflexivity.
Qed.

Lemma loop_trace_stops (k : exn -> exn) before e after blocks temps y left :
  walked before blocks temps ->
  visit_trace k e = (Err y, left) ->
  loop_trace k (before ++ e :: after) = (Err y, temps ++ left).
Proof.
  intros Hw He. induction Hw as [|e0 es b t b' t' Hv _ IH]; simpl.
  - now rewrite He.
  - rewrite (visited_trace k e0 b t Hv), IH. now rewrite app_assoc.
Qed.

Lemma docx_outcome_stops (k : exn -> exn) (html file_name : string) (w : world)
      body before e after blocks temps y left :
  find_body (html_parser html) = Some body ->
  descendants body = before ++ e :: after ->
  walked before blocks temps ->
  visit_trace k e = (Err y, left) ->
  docx_outcome k html file_name w =
    (Err y, with_tmp (tmp w ++ temps ++ left) w).
Proof.
  intros Hb Hd Hw He. unfold docx_outcome, assemble_trace.
  now rewrite Hb, Hd, (loop_trace_stops k _ _ _ _ _ _ _ Hw He).
Qed.

Lemma visit_trace_unread (k : exn -> exn) (e : element) (x : exn) :
  has_name "img" e = true ->
  read_image e = Err x ->
  visit_trace k e = (Err (k x), []).
Proof.
  intros Himg Hr. unfold visit_trace.
  now rewrite (has_name_p_img e Himg), Himg, Hr.
Qed.

Lemma visit_trace_unsaved (k : exn -> exn) (e : element) (im : image) (x : exn) :
  has_name "img" e = true ->
  read_image e = Ok im ->
  save_png im = Err x ->
  visit_trace k e = (Err (k x), [ [] ]).
Proof.
  intros Himg Hr Hs. unfold visit_trace.
  now rewrite (has_name_p_img e Himg), Himg, Hr, Hs.
Qed.

(** X6. The conversion stops at the first image it cannot read (no
    [src], no second field, not base64, not an image): where all the
    nodes before it in document order were visited without raising
    (python-docx took the text of every paragraph, every image was
    made into a picture), the call raises the exception of that image, in [2.py] under its two
    wrappers, and the temporary files made are those of the images
    before it; nothing after it is visited. *)
Theorem the_first_unreadable_image_stops_the_conversion
        (file_name : string) (w : world) body before e after blocks temps x :
  find_body (html_parser (editor w)) = Some body ->
  descendants body = before ++ e :: after ->
  walked before blocks temps ->
  has_name "img" e = true ->
  read_image e = Err x ->
  NoteApp.save_as_docx file_name w = (Err x, with_tmp (tmp w ++ temps) w) /\
  NoteModel._save_as_docx (editor w) file_name w =
    (Err (docx_failed (image_failed x)), with_tmp (tmp w ++ temps) w).
Proof.
  intros Hb Hd Hw Himg Hr. split.
  - rewrite NoteApp_save_as_docx_run.
    rewrite (docx_outcome_stops _ _ _ _ _ _ _ _ _ _ _ _ Hb Hd Hw
               (visit_trace_unread _ e x Himg Hr)).
    now rewrite app_nil_r.
  - rewrite NoteModel_save_as_docx_run.
    rewrite (docx_outcome_stops _ _ _ _ _ _ _ _ _ _ _ _ Hb Hd Hw
               (visit_trace_unread _ e x Himg Hr)).
    simpl. now rewrite app_nil_r.
Qed.

(** X7. An image that opens and cannot be saved as PNG leaves its
    temporary file behind, empty: the file is made before
    [image.save] runs and is not deleted.  Where the nodes before it
    were visited without raising, the call raises what [image.save]
    raised, and the temporary files are those of the images before
    and this empty one. *)
Theorem an_unsaved_image_leaves_an_empty_file
        (file_name : string) (w : world) body before e after blocks temps im x :
  find_body (html_parser (editor w)) = Some body ->
  descendants body = before ++ e :: after ->
  walked before blocks temps ->
  has_name "img" e = true ->
  read_image e = Ok im ->
  save_png im = Err x ->
  NoteApp.save_as_docx file_name w =
    (Err x, with_tmp (tmp w ++ temps ++ [ [] ]) w) /\
  NoteModel._save_as_docx (editor w) file_name w =
    (Err (docx_failed (image_failed x)),
     with_tmp (tmp w ++ temps ++ [ [] ]) w).
Proof.
  intros Hb Hd Hw Himg Hr Hs. split.
  - rewrite NoteApp_save_as_docx_run.
    now rewrite (docx_outcome_stops _ _ _ _ _ _ _ _ _ _ _ _ Hb Hd Hw
                   (visit_trace_unsaved _ e im x Himg Hr Hs)).
  - rewrite NoteModel_save_as_docx_run.
    now rewrite (docx_outcome_stops _ _ _ _ _ _ _ _ _ _ _ _ Hb Hd Hw
                   (visit_trace_unsaved _ e im x Himg Hr Hs)).
Qed.

(** X8. An image element without [src], the nodes before it visited
    without raising: [main.py] raises [KeyError] with the message ['src'] (in quotes),
    and [2.py] an exception whose message is the three prefixes and
    that message. *)
Theorem an_image_without_src_is_a_key_error
        (file_name : string) (w : world) body before attrs cs after blocks temps :
  PyStr.endswith file_name ".docx" = true ->
  find_body (html_parser (editor w)) = Some body ->
  descendants body = before ++ Tag "img" attrs cs :: after ->
  walked before blocks temps ->
  attrs !! "src" = None ->
  NoteApp.save_to_file file_name w =
    (Err (Raised KeyError "'src'"), with_tmp (tmp w ++ temps) w) /\
  exists e,
    NoteModel.save_to_file (editor w) file_name w =
      (Err e, with_tmp (tmp w ++ temps) w) /\
    str e =
      "Save failed: DOCX conversion failed: Image processing failed: 'src'" /\
    root_cause e = Raised KeyError "'src'".
Proof.
  intros Hx Hb Hd Hw Ha.
  assert (Hr : read_image (Tag "img" attrs cs) = Err (Raised KeyError "'src'")).
  { unfold read_image. now rewrite Ha. }
  assert (Hv : forall k,
             docx_outcome k (editor w) file_name w =
               (Err (k (Raised KeyError "'src'")), with_tmp (tmp w ++ temps) w)).
  { intros k.
    rewrite (docx_outcome_stops _ _ _ _ _ _ _ _ _ _ _ _ Hb Hd Hw
               (visit_trace_unread k (Tag "img" attrs cs) _ eq_refl Hr)).
    now rewrite app_nil_r. }
  split.
  - rewrite NoteApp_save_to_file_run, Hx. apply Hv.
  - eexists. rewrite NoteModel_save_to_file_run, Hx, Hv. simpl.
    split; [reflexivity|]. split; reflexivity.
Qed.

(** X9. A DOCX export that is repeated leaves the same document
    under the path and the same files, and makes the temporary files
    of the images once more: they add up with every export. *)
Theorem temporary_files_add_up (file_name : string) (w w1 : world) :
  NoteApp.save_as_docx file_name w = (Ok tt, w1) ->
  exists pngs,
    tmp w1 = tmp w ++ pngs /\
    NoteApp.save_as_docx file_name w1 =
      (Ok tt, with_tmp (tmp w ++ pngs ++ pngs) w1) /\
    NoteModel._save_as_docx (editor w) file_name w1 =
      (Ok tt, with_tmp (tmp w ++ pngs ++ pngs) w1).
Proof.
  rewrite NoteApp_save_as_docx_run. intros H.
  apply docx_outcome_walk in H as (body & blocks & temps & Hb & Hw & Ho & ->).
  exists temps. split; [reflexivity|].
  assert (Hk : forall k,
             docx_outcome k (editor w) file_name
               (World (editor w) (<[file_name := Docx blocks]> (fs w))
                  (tmp w ++ temps)) =
               (Ok tt,
                with_tmp (tmp w ++ temps ++ temps)
                  (World (editor w) (<[file_name := Docx blocks]> (fs w))
                     (tmp w ++ temps)))).
  { intros k. unfold docx_outcome, assemble_trace.
    rewrite Hb, (walked_trace k _ _ _ Hw), Ho. unfold with_tmp. simpl.
    now rewrite insert_insert_eq, app_assoc. }
  split.
  - rewrite NoteApp_save_as_docx_run. apply Hk.
  - apply NoteModel_docx_ok. apply Hk.
Qed.

End ExportFacts.

(** The page with an image in a paragraph, saved as DOCX; another
    path is left alone. *)
Lemma an_export_touches_its_destination_only_witness :
  let w := World "nested" {[ "old.txt" := Data [] ]} [ [] ] in
  fs (snd (NoteApp.save_to_file (P := Machine.posix) "n.docx" w)) !! "old.txt" =
    Some (Data []) /\
  fs (snd (NoteModel.save_to_file (P := Machine.posix) "nested" "n.docx" w))
    !! "old.txt" = Some (Data []).
Proof.
  intros w.
  destruct (an_export_touches_its_destination_only (P := Machine.posix)
              "nested" "n.docx" w) as (Hfs & _).
  destruct (Hfs "old.txt") as [Happ Hmodel]; [discriminate|].
  split; [exact Happ | exact Hmodel].
Defined.

(** The page whose image has no comma in its [src], over a file that
    is there already. *)
Lemma an_export_raising_before_the_write_writes_nothing_witness :
  let w := World "no comma" {[ "n.docx" := Data [] ]} [] in
  let locked := World "notes" {[ "/proc/n.txt" := Data [] ]} [] in
  (NoteApp.save_to_file (P := Machine.posix) "n.docx" w =
     (Err (Raised IndexError "list index out of range"), w) /\
   fs w = fs w) /\
  (NoteModel.save_to_file (P := Machine.posix) "no comma" "n.docx" w =
     (Err (save_failed (docx_failed (image_failed
             (Raised IndexError "list index out of range")))), w) /\
   fs w = fs w) /\
  (exists e w',
      NoteApp.save_to_file (P := Machine.posix) "/proc/n.txt" locked =
        (Err e, w') /\
      fs w' = fs locked) /\
  (exists e w',
      NoteModel.save_to_file (P := Machine.posix) "notes" "/proc/n.txt" locked =
        (Err e, w') /\
      fs w' = fs locked).
Proof.
  intros w locked.
  destruct (an_export_raising_before_the_write_writes_nothing
              (P := Machine.posix) "no comma" "n.docx" w) as [_ Hdocx].
  destruct (Hdocx eq_refl) as [Happ Hmodel].
  destruct (an_export_raising_before_the_write_writes_nothing
              (P := Machine.posix) "notes" "/proc/n.txt" locked) as [Hopen _].
  split; [|split].
  - apply Happ. vm_compute. reflexivity.
  - apply Hmodel. vm_compute. reflexivity.
  - apply (Hopen (Raised OSError "[Errno 13] Permission denied")).
    vm_compute. reflexivity.
Defined.

(** The page whose image has no comma in its [src]: the paragraph
    after the image is not reached. *)
Lemma the_first_unreadable_image_stops_the_conversion_witness :
  let w := Machine.fresh "no comma" in
  NoteApp.save_as_docx (P := Machine.posix) "n.docx" w =
    (Err (Raised IndexError "list index out of range"), w) /\
  NoteModel._save_as_docx (P := Machine.posix) "no comma" "n.docx" w =
    (Err (docx_failed (image_failed
            (Raised IndexError "list index out of range"))), w).
Proof.
  intros w.
  apply (the_first_unreadable_image_stops_the_conversion (P := Machine.posix)
           "n.docx" w
           (Tag "body" ∅
              [ Tag "p" ∅ [ NavigableString "a" ];
                Tag "img" (Machine.src_attr "nocomma") [];
                Tag "p" ∅ [ NavigableString "b" ] ])
           [ Tag "p" ∅ [ NavigableString "a" ]; NavigableString "a" ]
           (Tag "img" (Machine.src_attr "nocomma") [])
           [ Tag "p" ∅ [ NavigableString "b" ]; NavigableString "b" ]
           [ Paragraph "a" ] []).
  - vm_compute. reflexivity.
  - reflexivity.
  - apply (loop_trace_ok (P := Machine.posix) (fun x => x)). reflexivity.
  - reflexivity.
  - vm_compute. reflexivity.
Defined.

(** Two images, the second of which cannot be saved. *)
Lemma an_unsaved_image_leaves_an_empty_file_witness :
  let w := Machine.fresh "two images" in
  NoteApp.save_as_docx (P := Bench.picky) "n.docx" w =
    (Err (Raised OSError "cannot write mode CMYK as PNG"),
     World "two images" ∅ [ Machine.png_signature; [] ]) /\
  NoteModel._save_as_docx (P := Bench.picky) "two images" "n.docx" w =
    (Err (docx_failed (image_failed
            (Raised OSError "cannot write mode CMYK as PNG"))),
     World "two images" ∅ [ Machine.png_signature; [] ]).
Proof.
  intros w.
  apply (an_unsaved_image_leaves_an_empty_file (P := Bench.picky)
           "n.docx" w
           (Tag "body" ∅
              [ Tag "img"
                  (Machine.src_attr "data:image/png;base64,iVBORw0KGgo=") [];
                Tag "img"
                  (Machine.src_attr "data:image/png;base64,iVBORw0KGgoA") [];
                Tag "p" ∅ [ NavigableString "z" ] ])
           [ Tag "img"
               (Machine.src_attr "data:image/png;base64,iVBORw0KGgo=") [] ]
           (Tag "img"
              (Machine.src_attr "data:image/png;base64,iVBORw0KGgoA") [])
           [ Tag "p" ∅ [ NavigableString "z" ]; NavigableString "z" ]
           [ Picture Machine.png_signature (Inches 4) ]
           [ Machine.png_signature ]
           (Machine.png_signature ++ [ x00 ]%byte)).
  - vm_compute. reflexivity.
  - reflexivity.
  - apply (loop_trace_ok (P := Bench.picky) (fun x => x)).
    vm_compute. reflexivity.
  - reflexivity.
  - vm_compute. reflexivity.
  - reflexivity.
Defined.

(** An image with [alt] and no [src], after a paragraph. *)
Lemma an_image_without_src_is_a_key_error_witness :
  let w := Machine.fresh "no src" in
  NoteApp.save_to_file (P := Bench.picky) "n.docx" w =
    (Err (Raised KeyError "'src'"), w) /\
  exists e,
    NoteModel.save_to_file (P := Bench.picky) "no src" "n.docx" w = (Err e, w) /\
    str e =
      "Save failed: DOCX conversion failed: Image processing failed: 'src'" /\
    root_cause e = Raised KeyError "'src'".
Proof.
  intros w.
  apply (an_image_without_src_is_a_key_error (P := Bench.picky)
           "n.docx" w
           (Tag "body" ∅
              [ Tag "p" ∅ [ NavigableString "a" ];
                Tag "img" {[ "alt" := "x" ]} [];
                Tag "p" ∅ [ NavigableString "b" ] ])
           [ Tag "p" ∅ [ NavigableString "a" ]; NavigableString "a" ]
           {[ "alt" := "x" ]} []
           [ Tag "p" ∅ [ NavigableString "b" ]; NavigableString "b" ]
           [ Paragraph "a" ] []).
  - reflexivity.
  - vm_compute. reflexivity.
  - reflexivity.
  - apply (loop_trace_ok (P := Bench.picky) (fun x => x)). reflexivity.
  - vm_compute. reflexivity.
Defined.

(** The page with an image in a paragraph, saved twice. *)
Lemma temporary_files_add_up_witness :
  let w := Machine.fresh "nested" in
  let w1 := snd (NoteApp.save_as_docx (P := Machine.posix) "n.docx" w) in
  exists pngs,
    tmp w1 = tmp w ++ pngs /\
    NoteApp.save_as_docx (P := Machine.posix) "n.docx" w1 =
      (Ok tt, with_tmp (tmp w ++ pngs ++ pngs) w1) /\
    NoteModel._save_as_docx (P := Machine.posix) "nested" "n.docx" w1 =
      (Ok tt, with_tmp (tmp w ++ pngs ++ pngs) w1).
Proof.
  intros w w1.
  apply (temporary_files_add_up (P := Machine.posix) "n.docx" w w1).
  vm_compute. reflexivity.
Defined.

(** ** Saving from the window *)

Section SaveFacts.

Context {P : Platform}.

Lemma in_machine_run {A} (m : M A) (u : ui) :
  in_machine m u = (fst (m (machine u)), with_machine (snd (m (machine u))) u).
Proof. unfold in_machine. now destruct (m (machine u)). Qed.

Lemma with_machine_same (u : ui) : with_machine (machine u) u = u.
Proof. now destruct u. Qed.

Lemma NoteModel_returns_True (content file_name : string) (w w' : world) b :
  NoteModel.save_to_file content file_name w = (Ok b, w') -> b = true.
Proof.
  rewrite NoteModel_save_to_file_run.
  destruct (returns_True _) as [[b'|x] w1] eqn:E; simpl; [|discriminate].
  intros [= <- <-].
  destruct (PyStr.endswith file_name ".docx").
  - destruct (on_error docx_failed _) as [[[]|y] w2]; simpl in E; congruence.
  - destruct (text_outcome _ _ _) as [[[]|y] w2]; simpl in E; congruence.
Qed.

Lemma NoteModel_raises_save_failed (content file_name : string) (w w' : world) e :
  NoteModel.save_to_file content file_name w = (Err e, w') ->
  exists cause, str e = "Save failed: " +:+ cause.
Proof.
  rewrite NoteModel_save_to_file_run.
  destruct (returns_True _) as [[b'|x] w1]; simpl; [discriminate|].
  intros [= <- <-]. now exists (str x).
Qed.

Lemma try_save_run (file_name : string) (on_success : U unit) (u : ui) :
  NoteController.try_save file_name on_success u =
    match NoteModel.save_to_file (editor (machine u)) file_name (machine u) with
    | (Ok _, w') => on_success (with_machine w' u)
    | (Err e, w') => show_error (str e) (with_machine w' u)
    end.
Proof.
  unfold NoteController.try_save, in_machine.
  destruct (NoteModel.save_to_file _ _ _) as [[b|e] w'] eqn:E; [|reflexivity].
  now rewrite (NoteModel_returns_True _ _ _ _ _ E).
Qed.

(** X10. In [main.py] the path the dialog gave is kept before the
    save runs: after [save_as_note] with a path that is not empty,
    [current_file] is that path whether the save raised or not, what
    the call raises is what the save raised, and the next [save_note]
    saves to that path without asking. *)
Theorem the_path_is_kept_before_the_save (file_name : string) (u : ui) :
  nonempty file_name = true ->
  let first := NoteAppHandlers.save_as_note file_name u in
  current_file (snd first) = Some file_name /\
  fst first = fst (NoteApp.save_to_file file_name (machine u)) /\
  (forall answer,
      NoteAppHandlers.save_note answer (snd first) =
      in_machine (NoteApp.save_to_file file_name) (snd first)).
Proof.
  intros Hn first. unfold first, NoteAppHandlers.save_as_note. rewrite Hn.
  rewrite in_machine_run. cbn [fst snd].
  split; [reflexivity|]. split; [reflexivity|].
  intros answer. unfold NoteAppHandlers.save_note, chosen. cbn [current_file with_machine with_current_file].
  now rewrite Hn.
Qed.

Lemma controller_save_as_note_run
      (file_name : string) (u : ui) :
  nonempty file_name = true ->
  match NoteModel.save_to_file (editor (machine u)) file_name (machine u) with
  | (Ok _, w') =>
      NoteController.save_as_note file_name u =
        (Ok tt, Ui (Some file_name) (shown u) (quit u) w')
  | (Err e, w') =>
      NoteController.save_as_note file_name u =
        (Ok tt, Ui (current_file u) (shown u ++ [ str e ]) (quit u) w')
  end.
Proof.
  intros Hn. unfold NoteController.save_as_note. rewrite Hn, try_save_run.
  now destruct (NoteModel.save_to_file _ _ _) as [[b|e] w'].
Qed.

(** X11. In [2.py] the path is kept only when the save went well:
    [save_as_note] with a path that is not empty returns with
    [current_file] set to it and nothing shown when
    [NoteModel.save_to_file] returns, and with [current_file] as it
    was and the message of the exception shown when it raises. *)
Theorem the_controller_keeps_the_path_of_a_good_save
        (file_name : string) (u : ui) :
  nonempty file_name = true ->
  match NoteModel.save_to_file (editor (machine u)) file_name (machine u) with
  | (Ok _, w') =>
      NoteController.save_as_note file_name u =
        (Ok tt, Ui (Some file_name) (shown u) (quit u) w')
  | (Err e, w') =>
      NoteController.save_as_note file_name u =
        (Ok tt, Ui (current_file u) (shown u ++ [ str e ]) (quit u) w')
  end.
Proof. exact (controller_save_as_note_run file_name u). Qed.

Lemma save_failed_is_not_save_operation (cause : string) :
  "Save failed: " +:+ cause <> "Save operation failed".
Proof. discriminate. Qed.

Lemma try_save_reports (file_name : string) (on_success : U unit) (u : ui) :
  (forall v, fst (on_success v) = Ok tt /\ shown (snd (on_success v)) = shown v) ->
  reports u (NoteController.try_save file_name on_success u).
Proof.
  intros Hs. rewrite try_save_run.
  destruct (NoteModel.save_to_file _ _ _) as [[b|e] w'] eqn:E.
  - destruct (Hs (with_machine w' u)) as [H1 H2]. split; [exact H1|].
    exists []. rewrite H2, app_nil_r. repeat split; auto.
  - split; [reflexivity|].
    destruct (NoteModel_raises_save_failed _ _ _ _ _ E) as [cause Hc].
    exists [ str e ]. split; [reflexivity|]. rewrite Hc. split.
    + right. now exists cause.
    + intros [H | []]. now apply save_failed_is_not_save_operation in H.
Qed.

Lemma nothing_reports (u : ui) : reports u (Ok tt, u).
Proof.
  split; [reflexivity|]. exists []. simpl. rewrite app_nil_r.
  repeat split; auto.
Qed.

(** X12. The save handlers of [2.py] never raise: whatever the
    export raises is shown, one message for a call, and that message
    starts with ["Save failed: "].  The message
    ["Save operation failed"] is never shown, as
    [NoteModel.save_to_file] returns [True] or raises. *)
Theorem the_controller_reports_and_does_not_raise (file_name : string) (u : ui) :
  reports u (NoteController.save_note file_name u) /\
  reports u (NoteController.save_as_note file_name u).
Proof.
  assert (Has : reports u (NoteController.save_as_note file_name u)).
  { unfold NoteController.save_as_note.
    destruct (nonempty file_name); [|apply nothing_reports].
    apply try_save_reports. now intros v. }
  split; [|exact Has].
  unfold NoteController.save_note.
  destruct (chosen u) as [current|]; [|exact Has].
  apply try_save_reports. now intros v.
Qed.

Lemma chosen_current (u : ui) :
  current_file u <> Some EmptyString -> chosen u = current_file u.
Proof.
  unfold chosen, nonempty. destruct (current_file u) as [f|]; [|reflexivity].
  intros H. destruct (String.eqb_spec f EmptyString) as [->|_]; [|reflexivity].
  now contradiction H.
Qed.

Lemma nonempty_not_empty (f : string) :
  nonempty f = true -> Some f <> Some EmptyString.
Proof. unfold nonempty. intros H [= ->]. discriminate. Qed.

Lemma after_call_keeps (u : ui) (c : save_call) :
  current_file u <> Some EmptyString ->
  current_file (after_call u c) <> Some EmptyString.
Proof.
  intros Hu.
  assert (Has : forall answer,
             current_file (snd (NoteAppHandlers.save_as_note answer u))
             <> Some EmptyString).
  { intros answer. unfold NoteAppHandlers.save_as_note.
    destruct (nonempty answer) eqn:Hn; [|exact Hu].
    rewrite in_machine_run. cbn. now apply nonempty_not_empty. }
  assert (Hsn : forall answer,
             current_file (snd (NoteAppHandlers.save_note answer u))
             <> Some EmptyString).
  { intros answer. unfold NoteAppHandlers.save_note.
    destruct (chosen u); [|apply Has].
    rewrite in_machine_run. exact Hu. }
  destruct c as [answer|answer|answer]; cbn [after_call];
    [apply Hsn | apply Has|].
  unfold NoteAppHandlers.save_and_exit.
  destruct (chosen u).
  - rewrite in_machine_run. cbn [fst snd].
    destruct (fst (NoteApp.save_to_file s (machine u))); exact Hu.
  - specialize (Has answer).
    destruct (NoteAppHandlers.save_as_note answer u) as [[[]|e] u']; exact Has.
Qed.

Lemma after_controller_call_keeps (u : ui) (c : controller_call) :
  current_file u <> Some EmptyString ->
  current_file (after_controller_call u c) <> Some EmptyString.
Proof.
  intros Hu.
  assert (Hts : forall f,
             current_file (snd (NoteController.try_save f
                                  (fun u' => (Ok tt, u')) u))
             <> Some EmptyString).
  { intros f. rewrite try_save_run.
    destruct (NoteModel.save_to_file _ _ _) as [[b|e] w']; exact Hu. }
  assert (Has : forall answer,
             current_file (snd (NoteController.save_as_note answer u))
             <> Some EmptyString).
  { intros answer. unfold NoteController.save_as_note.
    destruct (nonempty answer) eqn:Hn; [|exact Hu].
    rewrite try_save_run.
    destruct (NoteModel.save_to_file _ _ _) as [[b|e] w']; cbn;
      [now apply nonempty_not_empty | exact Hu]. }
  destruct c as [answer|answer]; cbn [after_controller_call]; [|apply Has].
  unfold NoteController.save_note.
  destruct (chosen u); [apply Hts | apply Has].
Qed.

(** X13. From the opening of the window on, whatever the save
    handlers are called with and whether they raise, [current_file]
    is [None] or a path that is not empty, in [main.py] and in
    [2.py]: the test [if self.current_file] holds exactly when a path
    was kept. *)
Theorem current_file_is_never_empty
        (w : world) (calls : list save_call) (ccalls : list controller_call) :
  let u := fold_left after_call calls (opened w) in
  let v := fold_left after_controller_call ccalls (opened w) in
  current_file u <> Some EmptyString /\ chosen u = current_file u /\
  current_file v <> Some EmptyString /\ chosen v = current_file v.
Proof.
  assert (Hmain : forall calls u0,
             current_file u0 <> Some EmptyString ->
             current_file (fold_left after_call calls u0) <> Some EmptyString).
  { intros cs. induction cs as [|c cs IH]; intros u0 H0; simpl; [exact H0|].
    apply IH, after_call_keeps, H0. }
  assert (Hctl : forall calls u0,
             current_file u0 <> Some EmptyString ->
             current_file (fold_left after_controller_call calls u0)
             <> Some EmptyString).
  { intros cs. induction cs as [|c cs IH]; intros u0 H0; simpl; [exact H0|].
    apply IH, after_controller_call_keeps, H0. }
  assert (H0 : current_file (opened w) <> Some EmptyString) by discriminate.
  cbv zeta.
  pose proof (Hmain calls _ H0) as Hu. pose proof (Hctl ccalls _ H0) as Hv.
  repeat split; auto using chosen_current.
Qed.

Lemma save_as_note_quit (file_name : string) (u : ui) :
  quit (snd (NoteAppHandlers.save_as_note file_name u)) = quit u.
Proof.
  unfold NoteAppHandlers.save_as_note.
  destruct (nonempty file_name); [|reflexivity].
  now rewrite in_machine_run.
Qed.

(** X14. [save_and_exit] quits unless the save raises: when it
    returns, [QApplication.quit()] was called, and when it raises, it
    was not, and the exception is that of the save.  With no path
    kept and the dialog closed without a path, it quits and nothing
    was saved. *)
Theorem save_and_exit_quits_unless_the_save_raises (file_name : string) (u : ui) :
  let r := NoteAppHandlers.save_and_exit file_name u in
  (fst r = Ok tt -> quit (snd r) = true) /\
  (forall e,
      fst r = Err e ->
      quit (snd r) = quit u /\
      exists path, fst (NoteApp.save_to_file path (machine u)) = Err e) /\
  (chosen u = None ->
   nonempty file_name = false ->
   r = (Ok tt, Ui (current_file u) (shown u) true (machine u))).
Proof.
  cbv zeta. unfold NoteAppHandlers.save_and_exit.
  split; [|split].
  - destruct (chosen u) as [current|].
    + rewrite in_machine_run.
      destruct (fst (NoteApp.save_to_file current (machine u))); cbn;
        [reflexivity | discriminate].
    + destruct (NoteAppHandlers.save_as_note file_name u) as [[[]|e] u']; cbn;
        [reflexivity | discriminate].
  - intros e. destruct (chosen u) as [current|].
    + rewrite in_machine_run.
      destruct (fst (NoteApp.save_to_file current (machine u))) eqn:E; cbn;
        [discriminate|].
      intros [= <-]. split; [reflexivity|]. now exists current.
    + pose proof (save_as_note_quit file_name u) as Hq.
      unfold NoteAppHandlers.save_as_note in *.
      destruct (nonempty file_name); [|discriminate].
      rewrite in_machine_run in *. cbn [fst snd] in *.
      destruct (fst (NoteApp.save_to_file file_name _)) eqn:E; cbn;
        [discriminate|].
      intros [= <-]. split; [reflexivity|]. now exists file_name.
  - intros Hc Hn. rewrite Hc. unfold NoteAppHandlers.save_as_note.
    now rewrite Hn.
Qed.

Lemma NoteApp_text_again (file_name : string) (w w1 : world) :
  PyStr.endswith file_name ".docx" = false ->
  NoteApp.save_to_file file_name w = (Ok tt, w1) ->
  NoteApp.save_to_file file_name w1 = (Ok tt, w1).
Proof.
  intros Hx. rewrite !(NoteApp_text_run _ _ Hx).
  destruct (os_open file_name) as [[]|x]; [|discriminate].
  intros [= <-]. unfold with_fs. simpl. now rewrite insert_insert_eq.
Qed.

Lemma NoteModel_text_again (content file_name : string) (w w1 : world) b :
  PyStr.endswith file_name ".docx" = false ->
  NoteModel.save_to_file content file_name w = (Ok b, w1) ->
  NoteModel.save_to_file content file_name w1 = (Ok true, w1) /\
  editor w1 = editor w.
Proof.
  intros Hx. rewrite !(NoteModel_text_run _ _ _ Hx).
  destruct (os_open file_name) as [[]|x]; [|discriminate].
  intros [= <- <-]. unfold with_fs. simpl. now rewrite insert_insert_eq.
Qed.

(** X15. Save after Save As, to a path that is not a [.docx] path:
    once [save_as_note] has saved, a [save_note] that follows asks
    for no path and changes nothing, neither the files nor what the
    window keeps; in [main.py] and in [2.py]. *)
Theorem saving_again_changes_nothing (file_name : string) (u : ui) :
  nonempty file_name = true ->
  PyStr.endswith file_name ".docx" = false ->
  (let first := NoteAppHandlers.save_as_note file_name u in
   fst first = Ok tt ->
   forall answer,
     NoteAppHandlers.save_note answer (snd first) = (Ok tt, snd first)) /\
  (let first := NoteController.save_as_note file_name u in
   shown (snd first) = shown u ->
   forall answer,
     NoteController.save_note answer (snd first) = (Ok tt, snd first)).
Proof.
  intros Hn Hx. split.
  - cbv zeta. unfold NoteAppHandlers.save_as_note. rewrite Hn, in_machine_run.
    cbn [fst snd machine with_current_file].
    destruct (NoteApp.save_to_file file_name (machine u)) as [[[]|e] w1] eqn:E;
      cbn [fst snd]; [|discriminate].
    intros _ answer. unfold NoteAppHandlers.save_note, chosen.
    cbn [current_file with_machine with_current_file]. rewrite Hn.
    rewrite in_machine_run. cbn [machine with_machine].
    rewrite (NoteApp_text_again _ _ _ Hx E). reflexivity.
  - cbv zeta. pose proof (controller_save_as_note_run
                            file_name u Hn) as H.
    destruct (NoteModel.save_to_file (editor (machine u)) file_name (machine u))
      as [[b|e] w1] eqn:E; rewrite H; cbn [snd shown].
    + intros _ answer. unfold NoteController.save_note, chosen.
      cbn [current_file]. rewrite Hn, try_save_run. cbn [machine].
      destruct (NoteModel_text_again _ _ _ _ _ Hx E) as [Hagain He].
      rewrite He, Hagain. reflexivity.
    + intros Hs. exfalso.
      apply (f_equal (@length string)) in Hs. rewrite length_app in Hs.
      simpl in Hs. lia.
Qed.

End SaveFacts.

(** ** Pasting an image and exporting it *)

Section PasteFacts.

Context {P : Platform}.



End PasteFacts.


(** A page saved as [n.docx] where the image has no comma, and as
    [n.html]. *)
Lemma the_path_is_kept_before_the_save_witness :
  let u := opened (Machine.fresh "no comma") in
  let first := NoteAppHandlers.save_as_note (P := Machine.posix) "n.docx" u in
  current_file (snd first) = Some "n.docx" /\
  fst first = Err (Raised IndexError "list index out of range").
Proof.
  intros u first.
  destruct (the_path_is_kept_before_the_save (P := Machine.posix) "n.docx" u)
    as (Hc & Hr & _).
  - reflexivity.
  - split; [exact Hc|]. etransitivity; [exact Hr|]. vm_compute. reflexivity.
Defined.

Lemma the_controller_keeps_the_path_of_a_good_save_witness :
  let u := opened (Machine.fresh "no comma") in
  NoteController.save_as_note (P := Machine.posix) "n.docx" u =
    (Ok tt,
     Ui None
       [ "Save failed: DOCX conversion failed: Image processing failed: list index out of range" ]
       false (Machine.fresh "no comma")) /\
  current_file (snd (NoteController.save_as_note (P := Machine.posix) "n.html" u)) =
    Some "n.html".
Proof.
  intros u.
  pose proof (the_controller_keeps_the_path_of_a_good_save
                (P := Machine.posix) "n.docx" u eq_refl) as Hbad.
  pose proof (the_controller_keeps_the_path_of_a_good_save
                (P := Machine.posix) "n.html" u eq_refl) as Hgood.
  split.
  - vm_compute in Hbad. vm_compute. exact Hbad.
  - vm_compute in Hgood. vm_compute. congruence.
Defined.

(** Ctrl+Q on a window with no path, the dialog closed; and on a
    window whose path cannot be opened. *)
Lemma save_and_exit_quits_unless_the_save_raises_witness :
  let u := opened (Machine.fresh "nested") in
  let v := Ui (Some "/proc/n.html") [] false (Machine.fresh "nested") in
  NoteAppHandlers.save_and_exit (P := Machine.posix) EmptyString u =
    (Ok tt, Ui None [] true (Machine.fresh "nested")) /\
  quit (snd (NoteAppHandlers.save_and_exit (P := Machine.posix) "n.html" u)) =
    true /\
  quit (snd (NoteAppHandlers.save_and_exit (P := Machine.posix) EmptyString v)) =
    false.
Proof.
  intros u v.
  destruct (save_and_exit_quits_unless_the_save_raises (P := Machine.posix)
              EmptyString u) as (_ & _ & Hcancel).
  destruct (save_and_exit_quits_unless_the_save_raises (P := Machine.posix)
              "n.html" u) as (Hok & _ & _).
  destruct (save_and_exit_quits_unless_the_save_raises (P := Machine.posix)
              EmptyString v) as (_ & Herr & _).
  split; [|split].
  - apply Hcancel; reflexivity.
  - apply Hok. vm_compute. reflexivity.
  - destruct (Herr (Raised OSError "[Errno 13] Permission denied")) as [Hq _].
    + vm_compute. reflexivity.
    + exact Hq.
Defined.

(** Save As to [n.html], then Save. *)
Lemma saving_again_changes_nothing_witness :
  let u := opened (Machine.fresh "nested") in
  NoteAppHandlers.save_note (P := Machine.posix) "other.html"
    (snd (NoteAppHandlers.save_as_note (P := Machine.posix) "n.html" u)) =
    (Ok tt, snd (NoteAppHandlers.save_as_note (P := Machine.posix) "n.html" u)) /\
  NoteController.save_note (P := Machine.posix) "other.html"
    (snd (NoteController.save_as_note (P := Machine.posix) "n.html" u)) =
    (Ok tt, snd (NoteController.save_as_note (P := Machine.posix) "n.html" u)).
Proof.
  intros u.
  destruct (saving_again_changes_nothing (P := Machine.posix) "n.html" u)
    as [Happ Hctl]; [reflexivity | reflexivity |].
  split.
  - apply Happ. vm_compute. reflexivity.
  - apply Hctl. vm_compute. reflexivity.
Defined.
